(** * SpendWise tracker: the client's aggregates and the server's table

    A shallow embedding of the two halves of the tracker:

    - [Client]: the values that [src/App.tsx] derives from the loaded
      transaction list ([totals], [categoryTotals], [monthlyReport]) and
      the text that [handleExportCSV] offers for download;
    - [Server]: the five handlers of [server.ts], each one SQL statement
      over the [transactions] table;
    - [Routes]: the server answering requests one after the other;
    - [Views]: the categories of [types.ts] and the month cards;
    - [App]: the state of the page and its handlers, over the server.

    JavaScript numbers are IEEE doubles.  Nothing below relies on how they
    round: the development is parametric in the type of numbers and in the
    operations the code applies to them ([JsNumber]); integers are one
    instance, used to run the definitions on concrete inputs.

    Strings are sequences of characters compared character by character;
    [string] offers 256 characters where JavaScript has 65536 code units,
    and no function below looks inside a character. *)

From Stdlib Require Import Ascii Sorted.
From stdpp Require Import gmap strings list fin_maps pretty.

Open Scope string_scope.

(** ** Numbers and host-defined behaviour *)

(** The operations on numbers that the code uses. *)
Class JsNumber (num : Type) := {
  zero : num;                      (* the literal [0] *)
  plus : num → num → num;          (* [a + b] on two numbers *)
  minus : num → num → num;         (* [a - b] on two numbers *)
  sign : num → comparison;         (* how [sort] reads a comparator's result:
                                      [Lt] negative, [Gt] positive, [Eq] for
                                      zero and NaN *)
  truthy : num → bool;             (* ToBoolean: false on 0, -0 and NaN *)
  toString : num → string;         (* conversion to text in [+] and [join] *)
}.

(** What the host decides: the collation behind [localeCompare], and the
    text that a member of [Object.prototype] takes when it is concatenated
    to a string. *)
Class JsHost := {
  localeCompare : string → string → comparison;
  builtinText : string → string;
}.

(** Integers as numbers. *)
Definition ZNumber : JsNumber Z := {|
  zero := 0%Z;
  plus := Z.add;
  minus := Z.sub;
  sign := λ x, (x ?= 0)%Z;
  truthy := λ x, negb (x =? 0)%Z;
  toString := pretty;
|}.

(** Integers with a NaN: [None] is NaN, which [+] and [-] hand on, which is
    falsy and which [sort] reads as zero. *)
Definition NaNNumber : JsNumber (option Z) := {|
  zero := Some 0%Z;
  plus := λ x y, a ← x; b ← y; Some (a + b)%Z;
  minus := λ x y, a ← x; b ← y; Some (a - b)%Z;
  sign := λ x, match x with Some a => (a ?= 0)%Z | None => Eq end;
  truthy := λ x, match x with Some a => negb (a =? 0)%Z | None => false end;
  toString := λ x, match x with Some a => pretty a | None => "NaN" end;
|}.

(** A host that collates by character code. *)
Definition PlainHost : JsHost := {|
  localeCompare := String.compare;
  builtinText := λ k,
    if bool_decide (k = "__proto__") then "[object Object]"
    else if bool_decide (k = "constructor") then "function Object() { [native code] }"
    else "function " +:+ k +:+ "() { [native code] }";
|}.

(** [Array.prototype.sort] with a comparator: a stable sort.  [x] stays in
    front of [y] unless the comparator's result on [(x, y)] is positive. *)
Fixpoint sort_insert {A} (cmp : A → A → comparison) (x : A) (l : list A) : list A :=
  match l with
  | [] => [x]
  | y :: l' =>
      match cmp x y with
      | Gt => y :: sort_insert cmp x l'
      | _ => x :: l
      end
  end.

Definition sort {A} (cmp : A → A → comparison) (l : list A) : list A :=
  foldr (sort_insert cmp) [] l.

(** The order a sorted array is in: [x] may stay in front of [y]. *)
Definition keeps {A} (cmp : A → A → comparison) (x y : A) : Prop := cmp x y ≠ Gt.

(** [a.join(sep)] on an array of strings. *)
Definition join (sep : string) (l : list string) : string := String.concat sep l.

Definition newline : string := String "010"%char "".

(** The sum of a list of numbers: added to [0] one by one, from the left,
    which is the order in which the loops below meet them. *)
Definition sum {num} `{!JsNumber num} (l : list num) : num := fold_left plus l zero.

(** ** Objects used as dictionaries

    An object made by the literal [{}]: its own properties, in the order
    they were created, over the prototype [Object.prototype]. *)

(** The names that [Object.prototype] defines. *)
Definition ObjectPrototype : list string :=
  ["constructor"; "__defineGetter__"; "__defineSetter__"; "hasOwnProperty";
   "__lookupGetter__"; "__lookupSetter__"; "isPrototypeOf";
   "propertyIsEnumerable"; "toString"; "valueOf"; "__proto__"; "toLocaleString"].

(** What [o[k]] reads. *)
Inductive Lookup (V : Type) :=
  | Own (v : V)               (* an own property of [o] *)
  | Inherited (k : string)    (* the member [k] of [Object.prototype] *)
  | Undefined.
Arguments Own {V} v.
Arguments Inherited {V} k.
Arguments Undefined {V}.

Fixpoint own {V} (o : list (string * V)) (k : string) : option V :=
  match o with
  | [] => None
  | (k', v) :: o' => if decide (k' = k) then Some v else own o' k
  end.

Definition get {V} (o : list (string * V)) (k : string) : Lookup V :=
  match own o k with
  | Some v => Own v
  | None => if bool_decide (k ∈ ObjectPrototype) then Inherited k else Undefined
  end.

(** Writing the own property [k]: an existing one keeps its place, a new
    one comes last. *)
Fixpoint put {V} (o : list (string * V)) (k : string) (v : V) : list (string * V) :=
  match o with
  | [] => [(k, v)]
  | (k', v') :: o' =>
      if decide (k' = k) then (k, v) :: o' else (k', v') :: put o' k v
  end.

(** [o[k] = v] for a number or a string [v].  [__proto__] is an accessor
    of [Object.prototype] whose setter ignores such a value; the other
    members are writable data properties, so the write makes an own
    property. *)
Definition assign {V} (o : list (string * V)) (k : string) (v : V) : list (string * V) :=
  if bool_decide (k = "__proto__") then o else put o k v.

(** Property names that are array indices: canonical decimal numerals
    below [2^32 - 1]. *)
Definition digit (c : ascii) : option N :=
  let n := N_of_ascii c in
  if bool_decide (48 ≤ n ∧ n ≤ 57)%N then Some (n - 48)%N else None.

Fixpoint parseDigits (acc : N) (s : string) : option N :=
  match s with
  | EmptyString => Some acc
  | String c s' => d ← digit c; parseDigits (10 * acc + d)%N s'
  end.

Definition arrayIndex (k : string) : option N :=
  n ← parseDigits 0 k;
  if bool_decide (pretty n = k ∧ (n < 2 ^ 32 - 1)%N) then Some n else None.

(** [Object.entries(o)]: array-index names first, in ascending numeric
    order, then the other names in creation order. *)
Definition indexed {V} (o : list (string * V)) : list (N * (string * V)) :=
  omap (λ p, n ← arrayIndex p.1; Some (n, p)) o.

Definition entries {V} (o : list (string * V)) : list (string * V) :=
  (snd <$> sort (λ a b, (a.1 ?= b.1)%N) (indexed o))
  ++ filter (λ p, arrayIndex p.1 = None) o.

(** The outcome of code that can throw. *)
Inductive Completion (A : Type) :=
  | Normal (a : A)
  | ThrowTypeError.
Arguments Normal {A} a.
Arguments ThrowTypeError {A}.

(** [l.forEach(f)] over a state, stopping at the first throw. *)
Fixpoint forEach {A S} (f : S → A → Completion S) (l : list A) (s : S) : Completion S :=
  match l with
  | [] => Normal s
  | x :: l' =>
      match f s x with
      | Normal s' => forEach f l' s'
      | ThrowTypeError => ThrowTypeError
      end
  end.

(** ** The client: [src/App.tsx] *)

Module Client.
Section client.
Context {num : Type} {number : JsNumber num} {host : JsHost}.

(** [Transaction] of [types.ts]. *)
Record Transaction := {
  id : option Z;
  type : string;
  amount : num;
  category : string;
  date : string;
  note : option string;
}.

(** *** [totals] *)

Record Totals := { revenue : num; expense : num }.

Definition totals (transactions : list Transaction) : Totals :=
  fold_left
    (λ acc t,
       if bool_decide (type t = "revenue")
       then {| revenue := plus (revenue acc) (amount t); expense := expense acc |}
       else {| revenue := revenue acc; expense := plus (expense acc) (amount t) |})
    transactions
    {| revenue := zero; expense := zero |}.

(** *** [categoryTotals] *)

(** What a dictionary of sums can come to hold. *)
Inductive Value := VNum (x : num) | VStr (s : string).

(** [(v || 0) + a] for what [map[k]] read and a number [a].  A member of
    [Object.prototype] is truthy and not a number: [+] concatenates. *)
Definition orZeroPlus (v : Lookup Value) (a : num) : Value :=
  match v with
  | Undefined => VNum (plus zero a)
  | Own (VNum x) => VNum (plus (if truthy x then x else zero) a)
  | Own (VStr s) =>
      if bool_decide (s = "") then VNum (plus zero a) else VStr (s +:+ toString a)
  | Inherited k => VStr (builtinText k +:+ toString a)
  end.

(** [map[k] = (map[k] || 0) + a] *)
Definition addTo (map : list (string * Value)) (k : string) (a : num)
  : list (string * Value) :=
  assign map k (orZeroPlus (get map k) a).

Definition categoryMap (transactions : list Transaction) : list (string * Value) :=
  fold_left
    (λ map t,
       if bool_decide (type t = "expense")
       then addTo map (category t) (amount t)
       else map)
    transactions [].



(** [(a, b) => b[1] - a[1]].  A string among the two comes from a member
    of [Object.prototype] and does not read as a number: the difference
    is NaN. *)
Definition byValueDesc (a b : string * Value) : comparison :=
  match a.2, b.2 with
  | VNum x, VNum y => sign (minus y x)
  | _, _ => Eq
  end.

Definition categoryTotals (transactions : list Transaction) : list (string * Value) :=
  sort byValueDesc (entries (categoryMap transactions)).

(** *** [monthlyReport] *)

Record MonthData := {
  month_revenue : num;
  month_expense : num;
  categories : list (string * Value);
}.

(** The branch on [t.type] applied to the entry [d] of the month. *)
Definition record (d : MonthData) (t : Transaction) : MonthData :=
  if bool_decide (type t = "revenue")
  then {| month_revenue := plus (month_revenue d) (amount t);
          month_expense := month_expense d;
          categories := categories d |}
  else {| month_revenue := month_revenue d;
          month_expense := plus (month_expense d) (amount t);
          categories := addTo (categories d) (category t) (amount t) |}.

Definition emptyMonth : MonthData :=
  {| month_revenue := zero; month_expense := zero; categories := [] |}.

(** The body of the [forEach].  When [months[month]] reads a member of
    [Object.prototype] (of these names only [valueOf] is seven characters
    or fewer), it is truthy and no entry is created: a revenue is added
    to a property of that function and [months] is left as it was, an
    expense reads [.categories] of it, which is undefined, and indexing
    that throws. *)
Definition monthStep (months : list (string * MonthData)) (t : Transaction)
  : Completion (list (string * MonthData)) :=
  let month := String.substring 0 7 (date t) in
  match get months month with
  | Undefined => Normal (put months month (record emptyMonth t))
  | Own d => Normal (put months month (record d t))
  | Inherited _ =>
      if bool_decide (type t = "revenue") then Normal months else ThrowTypeError
  end.

(** The month of a transaction, and the entry that the report should
    hold for the transactions of one month. *)
Definition monthOf (t : Transaction) : string := String.substring 0 7 (date t).

Definition monthData (l : list Transaction) : MonthData :=
  {| month_revenue := revenue (totals l);
     month_expense := expense (totals l);
     categories := categoryMap l |}.

Definition monthlyReport (transactions : list Transaction)
  : Completion (list (string * MonthData)) :=
  match forEach monthStep transactions [] with
  | Normal months => Normal (sort (λ a b, localeCompare b.1 a.1) (entries months))
  | ThrowTypeError => ThrowTypeError
  end.

(** *** [handleExportCSV] *)

(** A cell of a row before [join] turns it into text. *)
Inductive Cell := CStr (s : string) | CNum (x : num).

Definition cellText (c : Cell) : string :=
  match c with CStr s => s | CNum x => toString x end.

(** [t.note || ''] *)
Definition noteOrEmpty (t : Transaction) : string :=
  match note t with
  | Some s => s
  | None => ""
  end.

Definition headers : list string := ["Date"; "Type"; "Category"; "Amount"; "Note"].

Definition monthTransactions (transactions : list Transaction) (month : string)
  : list Transaction :=
  filter (λ t, String.prefix month (date t) = true) transactions.

Definition exportRow (t : Transaction) : list Cell :=
  [CStr (date t); CStr (type t); CStr (category t); CNum (amount t); CStr (noteOrEmpty t)].

Definition exportRows (transactions : list Transaction) (month : string)
  : list (list Cell) :=
  exportRow <$> monthTransactions transactions month.

Definition csvContent (transactions : list Transaction) (month : string) : string :=
  join newline
    (join "," headers ::
     ((λ r, join "," (cellText <$> r)) <$> exportRows transactions month)).

(** A line of the file as one reads it: the five fields, separated by
    commas. *)
Definition csvLine (t : Transaction) : string :=
  date t +:+ "," +:+ type t +:+ "," +:+ category t +:+ ","
    +:+ toString (amount t) +:+ "," +:+ noteOrEmpty t.

(** The file offered for download: its name and its text. *)
Record Download := { download : string; content : string }.

Definition handleExportCSV {D} (transactions : list Transaction)
    (month : string) (data : D) : Download :=
  {| download := "SpendWise_Report_" +:+ month +:+ ".csv";
     content := csvContent transactions month |}.

End client.
Arguments Transaction : clear implicits.
Arguments Totals : clear implicits.
Arguments Cell : clear implicits.
Arguments Value : clear implicits.
Arguments MonthData : clear implicits.
End Client.

(** ** The server: [server.ts] *)

Module Server.
Section server.
Context {num : Type}.

(** The columns of a row of [transactions] besides [id].  [type],
    [amount], [category] and [date] are declared [NOT NULL]; [note] may
    be [NULL]. *)
Record Columns := {
  type : string;
  amount : num;
  category : string;
  date : string;
  note : option string;
}.

(** The database: the table, keyed by its [INTEGER PRIMARY KEY], and the
    largest id handed out so far, which [AUTOINCREMENT] keeps in
    [sqlite_sequence].  Ids are integers; the 64-bit range of the store
    is not modelled. *)
Record Database := {
  transactions : gmap Z Columns;
  sqlite_sequence : Z;
}.

(** [req.body]: a JSON object whose properties, when present, have the
    types of [Transaction]; [None] is a property that is absent or
    [null], which binds as [NULL].  No statement binds [id], and the
    responses spread it, where absent and [null] differ: for [id], [None]
    is no property at all, [Some None] is [id: null] and [Some (Some j)]
    is the number [j]. *)
Record Body := {
  body_id : option (option Z);
  body_type : option string;
  body_amount : option num;
  body_category : option string;
  body_date : option string;
  body_note : option string;
}.

(** The payload of a response. *)
Inductive Payload :=
  | Rows (rows : list (Z * Columns))     (* an array of rows *)
  | Echo (b : Body)                      (* [{ id: ..., ...req.body }] *)
  | Success (changes : option nat)       (* [{ success: true }], with [changes] or not *)
  | Message (message : string).          (* [{ message }] *)

(** What the client receives: a status with a JSON payload, or the answer
    of Express to an exception that no handler caught (status 500). *)
Inductive Response :=
  | Json (status : nat) (payload : Payload)
  | Uncaught.

(** *** The SQL statements *)

(** The [NOT NULL] constraints on the bound values; [None] when one of
    them fails. *)
Definition bind (b : Body) : option Columns :=
  ty ← body_type b;
  a ← body_amount b;
  c ← body_category b;
  d ← body_date b;
  Some {| type := ty; amount := a; category := c; date := d; note := body_note b |}.

(** [ORDER BY date DESC] on a [TEXT] column: the row [x] may stay in
    front of [y] unless its date is smaller. *)
Definition byDateDesc (x y : Z * Columns) : comparison :=
  String.compare (date y.2) (date x.2).

(** [SELECT * FROM transactions ORDER BY date DESC].  SQL leaves the
    order among equal dates open; here they stay in the order in which the
    table lists them. *)
Definition select_all (db : Database) : list (Z * Columns) :=
  sort byDateDesc (map_to_list (transactions db)).

(** The id that [AUTOINCREMENT] gives the next row: one more than the
    largest id in the table or ever handed out, and 1 at the least. *)
Definition max_rowid (t : gmap Z Columns) : Z :=
  foldr Z.max 0%Z (fst <$> map_to_list t).

Definition next_rowid (db : Database) : Z :=
  (Z.max (sqlite_sequence db) (max_rowid (transactions db)) + 1)%Z.

(** [INSERT INTO transactions (type, amount, category, date, note)
    VALUES (?, ?, ?, ?, ?)]: [lastInsertRowid] and the new state, or
    [None] when a constraint fails. *)
Definition insert_row (db : Database) (b : Body) : option (Z * Database) :=
  cols ← bind b;
  let rowid := next_rowid db in
  Some (rowid,
        {| transactions := <[rowid := cols]> (transactions db);
           sqlite_sequence := rowid |}).

(** [UPDATE transactions SET type = ?, amount = ?, category = ?,
    date = ?, note = ? WHERE id = ?]: the new state, or [None] when a
    constraint fails on the row it matches. *)
Definition update_row (db : Database) (b : Body) (i : Z) : option Database :=
  match transactions db !! i with
  | None => Some db
  | Some _ =>
      cols ← bind b;
      Some {| transactions := <[i := cols]> (transactions db);
              sqlite_sequence := sqlite_sequence db |}
  end.

(** [DELETE FROM transactions]: [changes] and the new state. *)
Definition delete_all (db : Database) : nat * Database :=
  (size (transactions db),
   {| transactions := ∅; sqlite_sequence := sqlite_sequence db |}).

(** [DELETE FROM transactions WHERE id = ?]: [changes] and the new state. *)
Definition delete_row (db : Database) (i : Z) : nat * Database :=
  match transactions db !! i with
  | None => (0, db)
  | Some _ =>
      (1, {| transactions := delete i (transactions db);
             sqlite_sequence := sqlite_sequence db |})
  end.

(** *** The handlers

    Each takes the database and the request and gives the response and
    the database afterwards.  The route parameter [:id] is taken as the
    number [Number(id)] when that is an integer. *)

(** [{ id, ...req.body }]: a property [id] of the body, [null] included,
    comes later in the literal and replaces the one written first. *)
Definition withId (i : Z) (b : Body) : Body :=
  {| body_id := match body_id b with Some own => Some own | None => Some (Some i) end;
     body_type := body_type b;
     body_amount := body_amount b;
     body_category := body_category b;
     body_date := body_date b;
     body_note := body_note b |}.

(** [GET /api/transactions] *)
Definition get_transactions (db : Database) : Response * Database :=
  (Json 200 (Rows (select_all db)), db).

(** [POST /api/transactions]: no [try]; a failing statement throws out
    of the handler. *)
Definition post_transaction (db : Database) (b : Body) : Response * Database :=
  match insert_row db b with
  | Some (rowid, db') => (Json 200 (Echo (withId rowid b)), db')
  | None => (Uncaught, db)
  end.

(** [PUT /api/transactions/:id] *)
Definition put_transaction (db : Database) (i : Z) (b : Body) : Response * Database :=
  match update_row db b i with
  | Some db' => (Json 200 (Echo (withId i b)), db')
  | None => (Json 500 (Message "Internal server error"), db)
  end.

(** [DELETE /api/transactions] *)
Definition delete_transactions (db : Database) : Response * Database :=
  let '(changes, db') := delete_all db in
  (Json 200 (Success (Some changes)), db').

(** [DELETE /api/transactions/:id] *)
Definition delete_transaction (db : Database) (i : Z) : Response * Database :=
  let '(changes, db') := delete_row db i in
  if bool_decide (changes = 0)
  then (Json 404 (Message "Transaction not found"), db')
  else (Json 200 (Success None), db').

End server.
Arguments Columns : clear implicits.
Arguments Database : clear implicits.
Arguments Body : clear implicits.
Arguments Payload : clear implicits.
Arguments Response : clear implicits.
End Server.

(** ** Sample data, over integers *)

Module Sample.
#[local] Existing Instance ZNumber.
#[local] Existing Instance PlainHost.

Definition entry (ty : string) (a : Z) (c d : string) : Client.Transaction Z :=
  {| Client.id := None; Client.type := ty; Client.amount := a;
     Client.category := c; Client.date := d; Client.note := None |}.

Definition lunch := entry "expense" 12 "Food" "2024-01-15".
Definition salary := entry "revenue" 3000 "Salary" "2024-01-31".
Definition rent := entry "expense" 900 "Rent" "2024-02-01".
Definition dinner := entry "expense" 30 "Food" "2024-02-14".
Definition ledger := [dinner; rent; salary; lunch].

Definition row (ty : string) (a : Z) (c d : string) : Server.Columns Z :=
  {| Server.type := ty; Server.amount := a; Server.category := c;
     Server.date := d; Server.note := None |}.

(** A table of three rows, after a fourth was deleted. *)
Definition table : Server.Database Z :=
  {| Server.transactions :=
       <[1%Z := row "expense" 12 "Food" "2024-01-15"]>
       (<[2%Z := row "revenue" 3000 "Salary" "2024-01-31"]>
       (<[3%Z := row "expense" 900 "Rent" "2024-02-01"]> ∅));
     Server.sqlite_sequence := 4 |}.

(** A complete request body, and one without an amount. *)
Definition complete : Server.Body Z :=
  {| Server.body_id := None;
     Server.body_type := Some "expense";
     Server.body_amount := Some 30%Z;
     Server.body_category := Some "Food";
     Server.body_date := Some "2024-02-14";
     Server.body_note := Some "dinner" |}.

(** The complete body with an id of its own. *)
Definition withOwnId : Server.Body Z :=
  {| Server.body_id := Some (Some 99%Z);
     Server.body_type := Some "expense";
     Server.body_amount := Some 30%Z;
     Server.body_category := Some "Food";
     Server.body_date := Some "2024-02-14";
     Server.body_note := Some "dinner" |}.

(** The complete body with [id: null]. *)
Definition withNullId : Server.Body Z :=
  {| Server.body_id := Some None;
     Server.body_type := Some "expense";
     Server.body_amount := Some 30%Z;
     Server.body_category := Some "Food";
     Server.body_date := Some "2024-02-14";
     Server.body_note := Some "dinner" |}.

Definition noAmount : Server.Body Z :=
  {| Server.body_id := None;
     Server.body_type := Some "expense";
     Server.body_amount := None;
     Server.body_category := Some "Food";
     Server.body_date := Some "2024-02-14";
     Server.body_note := Some "dinner" |}.
End Sample.

(** ** The server as a whole: requests in sequence *)

Module Routes.
Import Server.
Section routes.
Context {num : Type}.

(** The database of a new file: [CREATE TABLE IF NOT EXISTS] has made the
    table, and no id has been handed out. *)
Definition initial : Database num :=
  {| transactions := ∅; sqlite_sequence := 0 |}.

(** A request to one of the five routes. *)
Inductive Request :=
  | GET_transactions
  | POST_transactions (b : Body num)
  | PUT_transaction (i : Z) (b : Body num)
  | DELETE_transactions
  | DELETE_transaction (i : Z).

Definition route (db : Database num) (r : Request) : Response num * Database num :=
  match r with
  | GET_transactions => get_transactions db
  | POST_transactions b => post_transaction db b
  | PUT_transaction i b => put_transaction db i b
  | DELETE_transactions => delete_transactions db
  | DELETE_transaction i => delete_transaction db i
  end.

(** The database after a sequence of requests, served one after the other. *)
Definition serve (db : Database num) (rs : list Request) : Database num :=
  fold_left (λ db r, (route db r).2) rs db.

(** Every id of the table lies between 1 and the largest id handed out. *)
Definition bounded (db : Database num) : Prop :=
  (0 ≤ sqlite_sequence db)%Z
  ∧ ∀ i c, transactions db !! i = Some c → (1 ≤ i ≤ sqlite_sequence db)%Z.

End routes.
Arguments Request : clear implicits.
End Routes.

(** ** What the page shows besides: [types.ts] and the month cards *)

Module Views.
Import Client.
Section views.
Context {num : Type} {number : JsNumber num} {host : JsHost}.


(** The list under "Top Expenses" of a month card:
    [Object.entries(data.categories).sort((a, b) => b[1] - a[1]).slice(0, 3)]. *)
Definition topExpenses (data : MonthData num) : list (string * Value num) :=
  take 3 (sort byValueDesc (entries (categories data))).

(** [x - y] is not positive. *)
Definition atMost (x y : num) : Prop := sign (minus x y) ≠ Gt.

(** [a.localeCompare(b)] is not positive. *)
Definition notAfter (a b : string) : Prop := localeCompare a b ≠ Gt.

(** An entry that holds a number. *)
Definition isNumber (p : string * Value num) : Prop := ∃ x, p.2 = VNum x.

(** [-] orders the numbers of the entries of [l]: of two of them one is at
    most the other, and [atMost] passes along three of them. *)
Definition orderedOn (l : list (string * Value num)) : Prop :=
  (∀ c1 x1 c2 x2,
     (c1, VNum x1) ∈ l → (c2, VNum x2) ∈ l → ¬ atMost x1 x2 → atMost x2 x1)
  ∧ (∀ c1 x1 c2 x2 c3 x3,
       (c1, VNum x1) ∈ l → (c2, VNum x2) ∈ l → (c3, VNum x3) ∈ l →
       atMost x1 x2 → atMost x2 x3 → atMost x1 x3).

End views.
End Views.

(** ** The page: state and handlers of [App] *)

(** What the browser decides: [parseFloat] on the text of the amount field,
    as the request body carries it.  [None] stands for NaN and the
    infinities, all of which [JSON.stringify] writes as [null]. *)
Class JsBrowser (num : Type) := {
  parseFloat : string → option num;
}.

Module App.
Section app.
Context {num : Type} {number : JsNumber num} {browser : JsBrowser num}.

Inductive Theme := gold | standard.

(** The state variables of the component, one field for each [useState]. *)
Record State := {
  transactions : list (Client.Transaction num);
  isFormOpen : bool;
  isReportOpen : bool;
  editingTransaction : option (Client.Transaction num);
  loading : bool;
  theme : Theme;
  type : string;
  amount : string;
  category : string;
  date : string;
  note : string;
  isDeleting : option Z;
  isClearingAll : bool;
}.

Definition setTransactions (v : list (Client.Transaction num)) (s : State) : State :=
  {| transactions := v;
     isFormOpen := isFormOpen s;
     isReportOpen := isReportOpen s;
     editingTransaction := editingTransaction s;
     loading := loading s;
     theme := theme s;
     type := type s;
     amount := amount s;
     category := category s;
     date := date s;
     note := note s;
     isDeleting := isDeleting s;
     isClearingAll := isClearingAll s |}.

Definition setIsFormOpen (v : bool) (s : State) : State :=
  {| transactions := transactions s;
     isFormOpen := v;
     isReportOpen := isReportOpen s;
     editingTransaction := editingTransaction s;
     loading := loading s;
     theme := theme s;
     type := type s;
     amount := amount s;
     category := category s;
     date := date s;
     note := note s;
     isDeleting := isDeleting s;
     isClearingAll := isClearingAll s |}.

Definition setIsReportOpen (v : bool) (s : State) : State :=
  {| transactions := transactions s;
     isFormOpen := isFormOpen s;
     isReportOpen := v;
     editingTransaction := editingTransaction s;
     loading := loading s;
     theme := theme s;
     type := type s;
     amount := amount s;
     category := category s;
     date := date s;
     note := note s;
     isDeleting := isDeleting s;
     isClearingAll := isClearingAll s |}.

Definition setEditingTransaction (v : option (Client.Transaction num)) (s : State) : State :=
  {| transactions := transactions s;
     isFormOpen := isFormOpen s;
     isReportOpen := isReportOpen s;
     editingTransaction := v;
     loading := loading s;
     theme := theme s;
     type := type s;
     amount := amount s;
     category := category s;
     date := date s;
     note := note s;
     isDeleting := isDeleting s;
     isClearingAll := isClearingAll s |}.

Definition setLoading (v : bool) (s : State) : State :=
  {| transactions := transactions s;
     isFormOpen := isFormOpen s;
     isReportOpen := isReportOpen s;
     editingTransaction := editingTransaction s;
     loading := v;
     theme := theme s;
     type := type s;
     amount := amount s;
     category := category s;
     date := date s;
     note := note s;
     isDeleting := isDeleting s;
     isClearingAll := isClearingAll s |}.

Definition setTheme (v : Theme) (s : State) : State :=
  {| transactions := transactions s;
     isFormOpen := isFormOpen s;
     isReportOpen := isReportOpen s;
     editingTransaction := editingTransaction s;
     loading := loading s;
     theme := v;
     type := type s;
     amount := amount s;
     category := category s;
     date := date s;
     note := note s;
     isDeleting := isDeleting s;
     isClearingAll := isClearingAll s |}.

Definition setType (v : string) (s : State) : State :=
  {| transactions := transactions s;
     isFormOpen := isFormOpen s;
     isReportOpen := isReportOpen s;
     editingTransaction := editingTransaction s;
     loading := loading s;
     theme := theme s;
     type := v;
     amount := amount s;
     category := category s;
     date := date s;
     note := note s;
     isDeleting := isDeleting s;
     isClearingAll := isClearingAll s |}.

Definition setAmount (v : string) (s : State) : State :=
  {| transactions := transactions s;
     isFormOpen := isFormOpen s;
     isReportOpen := isReportOpen s;
     editingTransaction := editingTransaction s;
     loading := loading s;
     theme := theme s;
     type := type s;
     amount := v;
     category := category s;
     date := date s;
     note := note s;
     isDeleting := isDeleting s;
     isClearingAll := isClearingAll s |}.

Definition setCategory (v : string) (s : State) : State :=
  {| transactions := transactions s;
     isFormOpen := isFormOpen s;
     isReportOpen := isReportOpen s;
     editingTransaction := editingTransaction s;
     loading := loading s;
     theme := theme s;
     type := type s;
     amount := amount s;
     category := v;
     date := date s;
     note := note s;
     isDeleting := isDeleting s;
     isClearingAll := isClearingAll s |}.

Definition setDate (v : string) (s : State) : State :=
  {| transactions := transactions s;
     isFormOpen := isFormOpen s;
     isReportOpen := isReportOpen s;
     editingTransaction := editingTransaction s;
     loading := loading s;
     theme := theme s;
     type := type s;
     amount := amount s;
     category := category s;
     date := v;
     note := note s;
     isDeleting := isDeleting s;
     isClearingAll := isClearingAll s |}.

Definition setNote (v : string) (s : State) : State :=
  {| transactions := transactions s;
     isFormOpen := isFormOpen s;
     isReportOpen := isReportOpen s;
     editingTransaction := editingTransaction s;
     loading := loading s;
     theme := theme s;
     type := type s;
     amount := amount s;
     category := category s;
     date := date s;
     note := v;
     isDeleting := isDeleting s;
     isClearingAll := isClearingAll s |}.

Definition setIsDeleting (v : option Z) (s : State) : State :=
  {| transactions := transactions s;
     isFormOpen := isFormOpen s;
     isReportOpen := isReportOpen s;
     editingTransaction := editingTransaction s;
     loading := loading s;
     theme := theme s;
     type := type s;
     amount := amount s;
     category := category s;
     date := date s;
     note := note s;
     isDeleting := v;
     isClearingAll := isClearingAll s |}.

Definition setIsClearingAll (v : bool) (s : State) : State :=
  {| transactions := transactions s;
     isFormOpen := isFormOpen s;
     isReportOpen := isReportOpen s;
     editingTransaction := editingTransaction s;
     loading := loading s;
     theme := theme s;
     type := type s;
     amount := amount s;
     category := category s;
     date := date s;
     note := note s;
     isDeleting := isDeleting s;
     isClearingAll := v |}.

(** The state of the first render; [today] is
    [new Date().toISOString().split('T')[0]]. *)
Definition initialState (today : string) : State :=
  {| transactions := []; isFormOpen := false; isReportOpen := false;
     editingTransaction := None; loading := true; theme := gold;
     type := "expense"; amount := ""; category := ""; date := today; note := "";
     isDeleting := None; isClearingAll := false |}.

(** The page together with the server behind it, and the messages shown
    by [alert].  The server is reached on every request; no request is
    lost, and nobody else writes to the database. *)
Record World := {
  state : State;
  database : Server.Database num;
  alerts : list string;
}.

(** A row as [res.json()] gives it to the page. *)
Definition fromRow (r : Z * Server.Columns num) : Client.Transaction num :=
  {| Client.id := Some r.1;
     Client.type := Server.type r.2;
     Client.amount := Server.amount r.2;
     Client.category := Server.category r.2;
     Client.date := Server.date r.2;
     Client.note := Server.note r.2 |}.

(** [response.ok]: a status from 200 to 299.  Express answers an exception
    that no handler caught with 500. *)
Definition ok (r : Server.Response num) : bool :=
  match r with
  | Server.Json status _ => bool_decide (200 ≤ status ≤ 299)%nat
  | Server.Uncaught => false
  end.

(** [fetchTransactions]: the list endpoint answers with rows, which become
    the list; [loading] ends in either case. *)
Definition fetchTransactions (w : World) : World :=
  let '(res, db) := Server.get_transactions (database w) in
  match res with
  | Server.Json _ (Server.Rows rows) =>
      {| state := setLoading false (setTransactions (fromRow <$> rows) (state w));
         database := db; alerts := alerts w |}
  | _ => {| state := setLoading false (state w); database := db; alerts := alerts w |}
  end.

Definition resetForm (today : string) (s : State) : State :=
  setEditingTransaction None
    (setNote "" (setDate today (setCategory "" (setAmount "" (setType "expense" s))))).

Definition handleEdit (t : Client.Transaction num) (s : State) : State :=
  setIsFormOpen true
    (setNote (Client.noteOrEmpty t)
       (setDate (Client.date t)
          (setCategory (Client.category t)
             (setAmount (toString (Client.amount t))
                (setType (Client.type t) (setEditingTransaction (Some t) s)))))).

(** The body that [handleSubmit] sends. *)
Definition payload (s : State) : Server.Body num :=
  {| Server.body_id := None;
     Server.body_type := Some (type s);
     Server.body_amount := parseFloat (amount s);
     Server.body_category := Some (category s);
     Server.body_date := Some (date s);
     Server.body_note := Some (note s) |}.

(** [handleSubmit]: a PUT to the id of the transaction under edit, or a
    POST; the answer is not looked at.  Then the list is fetched, the form
    closed and reset; the fetch settles last.  A transaction without an id
    makes the path end in 'undefined', a number that no row has. *)
Definition handleSubmit (today : string) (w : World) : World :=
  let s := state w in
  let db :=
    match editingTransaction s with
    | Some t =>
        match Client.id t with
        | Some i => (Server.put_transaction (database w) i (payload s)).2
        | None => database w
        end
    | None => (Server.post_transaction (database w) (payload s)).2
    end in
  fetchTransactions
    {| state := resetForm today (setIsFormOpen false s);
       database := db; alerts := alerts w |}.

(** [editingTransaction?.id === id] *)
Definition isEditing (s : State) (i : Z) : bool :=
  match editingTransaction s with
  | Some t => bool_decide (Client.id t = Some i)
  | None => false
  end.

Definition handleDelete (today : string) (id : option Z) (w : World) : World :=
  match id with
  | None => w
  | Some i =>
      let '(response, db) := Server.delete_transaction (database w) i in
      if ok response then
        let s := if isEditing (state w) i
                 then setIsFormOpen false (resetForm today (state w))
                 else state w in
        let w' := fetchTransactions {| state := s; database := db; alerts := alerts w |} in
        {| state := setIsDeleting None (state w');
           database := database w'; alerts := alerts w' |}
      else
        {| state := state w; database := db;
           alerts := alerts w ++ ["Failed to delete transaction. Please try again."] |}
  end.

Definition handleClearAll (w : World) : World :=
  let '(response, db) := Server.delete_transactions (database w) in
  if ok response then
    let w' := fetchTransactions {| state := state w; database := db; alerts := alerts w |} in
    {| state := setIsReportOpen false (setIsClearingAll false (state w'));
       database := database w'; alerts := alerts w' |}
  else
    {| state := state w; database := db;
       alerts := alerts w ++ ["Failed to clear ledger."] |}.

(** What the user and the page can do. *)
Inductive Action :=
  | Mount                                     (* the effect of the first render *)
  | ClickEdit (t : Client.Transaction num)    (* a row, or its pencil *)
  | Submit                                    (* the form *)
  | AskDelete (i : Z)                         (* a bin: [setIsDeleting(t.id!)] on a row
                                                 of the server, which has an id *)
  | CancelDelete
  | ConfirmDelete                             (* [handleDelete(isDeleting)] *)
  | AskClearAll
  | CancelClearAll
  | ConfirmClearAll
  | OpenNew                                   (* [resetForm(); setIsFormOpen(true)] *)
  | CloseForm
  | OpenReport
  | CloseReport
  | ChooseType (ty : string)                  (* [setType(ty); setCategory('')] *)
  | TypeAmount (v : string)
  | ChooseCategory (v : string)
  | ChooseDate (v : string)
  | TypeNote (v : string)
  | ClearDetails                              (* [resetForm] *)
  | ToggleTheme.

Definition onState (f : State → State) (w : World) : World :=
  {| state := f (state w); database := database w; alerts := alerts w |}.

Definition act (today : string) (a : Action) (w : World) : World :=
  match a with
  | Mount => fetchTransactions w
  | ClickEdit t => onState (handleEdit t) w
  | Submit => handleSubmit today w
  | AskDelete i => onState (setIsDeleting (Some i)) w
  | CancelDelete => onState (setIsDeleting None) w
  | ConfirmDelete => handleDelete today (isDeleting (state w)) w
  | AskClearAll => onState (setIsClearingAll true) w
  | CancelClearAll => onState (setIsClearingAll false) w
  | ConfirmClearAll => handleClearAll w
  | OpenNew => onState (λ s, setIsFormOpen true (resetForm today s)) w
  | CloseForm => onState (setIsFormOpen false) w
  | OpenReport => onState (setIsReportOpen true) w
  | CloseReport => onState (setIsReportOpen false) w
  | ChooseType ty => onState (λ s, setCategory "" (setType ty s)) w
  | TypeAmount v => onState (setAmount v) w
  | ChooseCategory v => onState (setCategory v) w
  | ChooseDate v => onState (setDate v) w
  | TypeNote v => onState (setNote v) w
  | ClearDetails => onState (resetForm today) w
  | ToggleTheme =>
      onState (λ s, setTheme (match theme s with gold => standard | standard => gold end) s) w
  end.

(** The page over a database, before its first effect, and after a run of
    actions. *)
Definition start (today : string) (db : Server.Database num) : World :=
  {| state := initialState today; database := db; alerts := [] |}.

Definition run (today : string) (actions : list Action) (w : World) : World :=
  fold_left (λ w a, act today a w) actions w.

(** The page shows the table: its list is what the list endpoint would
    answer now. *)
Definition synced (w : World) : Prop :=
  transactions (state w) = fromRow <$> Server.select_all (database w).

End app.
Arguments State : clear implicits.
Arguments World : clear implicits.
Arguments Action : clear implicits.
End App.

(** ** More sample data *)

(** A browser for integers: the amount field holds digits, or nothing. *)
Definition ZBrowser : JsBrowser Z := {|
  parseFloat := λ s,
    if bool_decide (s = "") then None else Z.of_N <$> parseDigits 0 s;
|}.

Module Scenario.
#[local] Existing Instance ZNumber.
#[local] Existing Instance PlainHost.
#[local] Existing Instance ZBrowser.

(** The page over the sample table, loaded. *)
Definition page : App.World Z :=
  App.act "2024-03-01" App.Mount (App.start "2024-03-01" Sample.table).

(** The form filled in for a new entry, and left without an amount. *)
Definition filled : App.World Z :=
  App.run "2024-03-01"
    [App.OpenNew; App.TypeAmount "30"; App.ChooseCategory "Food";
     App.ChooseDate "2024-02-14"; App.TypeNote "dinner"] page.

Definition unfilled : App.World Z :=
  App.run "2024-03-01"
    [App.OpenNew; App.ChooseCategory "Food"; App.TypeNote "dinner"] page.

(** The first row of the sample table as the page holds it. *)
Definition shownLunch : Client.Transaction Z :=
  App.fromRow (1%Z, Sample.row "expense" 12 "Food" "2024-01-15").

(** The month card of February in the sample ledger, with two more
    categories. *)
Definition february : Client.MonthData Z :=
  {| Client.month_revenue := 0%Z;
     Client.month_expense := 1000%Z;
     Client.categories :=
       [("Food", Client.VNum 30%Z); ("Rent", Client.VNum 900%Z);
        ("Transport", Client.VNum 20%Z); ("Health", Client.VNum 50%Z)] |}.

(** The sample ledger and the month card over integers with a NaN. *)
Definition entryN (ty : string) (a : Z) (c d : string) : Client.Transaction (option Z) :=
  {| Client.id := None; Client.type := ty; Client.amount := Some a;
     Client.category := c; Client.date := d; Client.note := None |}.

Definition ledgerN : list (Client.Transaction (option Z)) :=
  [entryN "expense" 30 "Food" "2024-02-14"; entryN "expense" 900 "Rent" "2024-02-01";
   entryN "revenue" 3000 "Salary" "2024-01-31"; entryN "expense" 12 "Food" "2024-01-15"].

Definition februaryN : Client.MonthData (option Z) :=
  {| Client.month_revenue := Some 0%Z;
     Client.month_expense := Some 1000%Z;
     Client.categories :=
       [("Food", Client.VNum (Some 30%Z)); ("Rent", Client.VNum (Some 900%Z));
        ("Transport", Client.VNum (Some 20%Z)); ("Health", Client.VNum (Some 50%Z))] |}.

(** Two creates and a delete of the first row. *)
Definition createTwice : list (Routes.Request Z) :=
  [Routes.POST_transactions Sample.complete; Routes.POST_transactions Sample.complete].

Definition deleteFirst : list (Routes.Request Z) := [Routes.DELETE_transaction 1].
End Scenario.

(** * Properties *)

(** ** Sorting *)

Section sorting.
Context {A : Type} (cmp : A → A → comparison).

Lemma sort_insert_perm x l : sort_insert cmp x l ≡ₚ x :: l.
Proof.
  induction l as [|y l IH]; simpl; [done|].
  destruct (cmp x y); try done.
  rewrite IH. apply perm_swap.
Qed.

Lemma sort_perm l : sort cmp l ≡ₚ l.
Proof.
  induction l as [|x l IH]; simpl; [done|].
  unfold sort in *. simpl. by rewrite sort_insert_perm, IH.
Qed.

Lemma elem_of_sort x l : x ∈ sort cmp l ↔ x ∈ l.
Proof. by rewrite sort_perm. Qed.

Hypothesis keeps_total : ∀ x y, cmp x y = Gt → keeps cmp y x.
Hypothesis keeps_trans : ∀ x y z, keeps cmp x y → keeps cmp y z → keeps cmp x z.

Lemma sort_insert_sorted x l :
  StronglySorted (keeps cmp) l → StronglySorted (keeps cmp) (sort_insert cmp x l).
Proof.
  induction 1 as [|y l Hl IH Hy]; simpl.
  - repeat constructor.
  - destruct (cmp x y) eqn:Hxy.
    + constructor; [by constructor|].
      constructor; [unfold keeps; congruence|].
      eapply Forall_impl; [exact Hy|]. intros z Hz.
      eapply keeps_trans; [|exact Hz]. unfold keeps; congruence.
    + constructor; [by constructor|].
      constructor; [unfold keeps; congruence|].
      eapply Forall_impl; [exact Hy|]. intros z Hz.
      eapply keeps_trans; [|exact Hz]. unfold keeps; congruence.
    + constructor; [done|].
      rewrite sort_insert_perm. constructor; [by apply keeps_total|done].
Qed.

Lemma sort_sorted l : StronglySorted (keeps cmp) (sort cmp l).
Proof.
  induction l as [|x l IH]; [constructor|].
  unfold sort in *. simpl. by apply sort_insert_sorted.
Qed.
End sorting.

(** Sorting a list whose elements the comparator orders consistently. *)
Section sorting_on.
Context {A : Type} (cmp : A → A → comparison) (P : A → Prop).
Hypothesis keeps_total : ∀ x y, P x → P y → cmp x y = Gt → keeps cmp y x.
Hypothesis keeps_trans :
  ∀ x y z, P x → P y → P z → keeps cmp x y → keeps cmp y z → keeps cmp x z.

Lemma sort_insert_sorted_on x l :
  P x → Forall P l →
  StronglySorted (keeps cmp) l → StronglySorted (keeps cmp) (sort_insert cmp x l).
Proof.
  intros Hx HP Hs. induction Hs as [|y l Hl IH Hy]; simpl.
  - repeat constructor.
  - apply Forall_cons in HP as [HPy HPl].
    assert (cmp x y ≠ Gt → StronglySorted (keeps cmp) (x :: y :: l)) as Hfront.
    { intros Hxy. constructor; [by constructor|].
      constructor; [done|]. rewrite Forall_forall in Hy, HPl.
      apply Forall_forall. intros z Hz.
      apply (keeps_trans x y z); auto. }
    destruct (cmp x y) eqn:Hxy; [by apply Hfront..|].
    constructor; [by apply IH|].
    rewrite sort_insert_perm. constructor; [by apply keeps_total|done].
Qed.

Lemma sort_sorted_on l : Forall P l → StronglySorted (keeps cmp) (sort cmp l).
Proof.
  induction 1 as [|x l Hx Hl IH]; [constructor|].
  unfold sort in *. simpl. apply sort_insert_sorted_on; [done| |done].
  fold (sort cmp l). by rewrite sort_perm.
Qed.
End sorting_on.

Lemma sorted_app_elem {A} (R : A → A → Prop) (l1 l2 : list A) x y :
  StronglySorted R (l1 ++ l2) → x ∈ l1 → y ∈ l2 → R x y.
Proof.
  induction l1 as [|z l1 IH]; simpl; intros Hs Hx Hy.
  - by apply elem_of_nil in Hx.
  - apply StronglySorted_inv in Hs as [Hs Hz].
    apply elem_of_cons in Hx as [->|Hx]; [|by apply IH].
    rewrite Forall_forall in Hz. apply Hz, elem_of_app. by right.
Qed.

Lemma sorted_lookup {A} (R : A → A → Prop) (l : list A) :
  StronglySorted R l →
  ∀ i j x y, (i < j)%nat → l !! i = Some x → l !! j = Some y → R x y.
Proof.
  induction 1 as [|z l Hs IH Hz]; intros i j x y Hij Hx Hy.
  - by rewrite lookup_nil in Hx.
  - destruct j as [|j]; [lia|]. simpl in Hy. destruct i as [|i].
    + injection Hx as <-. rewrite Forall_forall in Hz. apply Hz.
      by eapply list_elem_of_lookup_2.
    + simpl in Hx. apply (IH i j); [lia|done..].
Qed.

(** ** Objects *)

Section objects.
Context {V : Type}.
Implicit Types (o : list (string * V)) (k : string) (v : V).

Lemma own_put_eq o k v : own (put o k v) k = Some v.
Proof.
  induction o as [|[k' v'] o IH]; simpl; repeat case_decide; simpl;
    repeat case_decide; try done.
Qed.

Lemma own_put_ne o k k' v : k ≠ k' → own (put o k v) k' = own o k'.
Proof.
  intros Hne. induction o as [|[k'' v''] o IH]; simpl; repeat case_decide;
    simpl; repeat case_decide; try done; congruence.
Qed.

Lemma own_None o k : own o k = None ↔ k ∉ o.*1.
Proof.
  induction o as [|[k' v'] o IH]; simpl.
  - split; [intros _; apply not_elem_of_nil|done].
  - rewrite not_elem_of_cons. destruct (decide (k' = k)) as [->|Hne].
    + split; [done|]. by intros [? _].
    + rewrite IH. split; [by intros ?|by intros [_ ?]].
Qed.

Lemma own_Some_elem o k v : own o k = Some v → (k, v) ∈ o.
Proof.
  induction o as [|[k' v'] o IH]; simpl; [done|].
  case_decide; [intros [= <-]; subst; left|right; auto].
Qed.

Lemma elem_own o k v : NoDup o.*1 → (k, v) ∈ o → own o k = Some v.
Proof.
  induction o as [|[k' v'] o IH]; simpl; intros Hnd Hin.
  - by apply elem_of_nil in Hin.
  - apply NoDup_cons in Hnd as [Hk' Hnd].
    apply elem_of_cons in Hin as [[= <- <-]|Hin]; [by rewrite decide_True|].
    rewrite decide_False; [by apply IH|]. intros ->.
    apply Hk'. apply list_elem_of_fmap. by exists (k, v).
Qed.

Lemma put_keys o k v :
  (put o k v).*1 = if decide (k ∈ o.*1) then o.*1 else (o.*1 ++ [k])%list.
Proof.
  induction o as [|[k' v'] o IH].
  - simpl. destruct (decide (k ∈ [])) as [Hin|_]; [|done].
    by apply elem_of_nil in Hin.
  - cbn [put fmap list_fmap fst]. destruct (decide (k' = k)) as [->|Hne].
    + cbn [fmap list_fmap fst]. rewrite decide_True; [done|left].
    + cbn [fmap list_fmap fst]. rewrite IH.
      destruct (decide (k ∈ o.*1)) as [Hin|Hin].
      * rewrite decide_True; [done|by right].
      * rewrite decide_False; [done|]. rewrite not_elem_of_cons. naive_solver.
Qed.

Lemma put_NoDup o k v : NoDup o.*1 → NoDup (put o k v).*1.
Proof.
  intros Hnd. rewrite put_keys. case_decide; [done|].
  apply NoDup_app. split; [done|]. split; [|apply NoDup_singleton].
  intros k' Hk' Hin. apply list_elem_of_singleton in Hin. by subst.
Qed.

Lemma entries_perm o : entries o ≡ₚ o.
Proof.
  unfold entries. rewrite <- (filter_app_complement (λ p, is_Some (arrayIndex p.1)) o) at 3.
  f_equiv.
  - rewrite sort_perm. unfold indexed. clear.
    induction o as [|p o IH]; [done|]. cbn [omap list_omap].
    destruct (arrayIndex p.1) as [n|] eqn:E; cbn [mbind option_bind].
    + rewrite filter_cons_True by (rewrite E; eauto).
      cbn [fmap list_fmap snd]. by rewrite IH.
    + rewrite filter_cons_False by (rewrite E; by intros [? ?]). done.
  - erewrite list_filter_iff; [done|]. intros p.
    apply eq_None_not_Some.
Qed.
End objects.

(** ** The client *)

Module ClientSpec.
Import Client.
Section client.
Context {num : Type} {number : JsNumber num} {host : JsHost}.

Implicit Types (t : Transaction num) (transactions : list (Transaction num)).

Lemma totals_from transactions (acc : Totals num) :
  let step := λ (acc : Totals num) t,
    if bool_decide (type t = "revenue")
    then {| revenue := plus (revenue acc) (amount t); expense := expense acc |}
    else {| revenue := revenue acc; expense := plus (expense acc) (amount t) |} in
  revenue (fold_left step transactions acc)
    = fold_left plus (amount <$> filter (λ t, type t = "revenue") transactions)
        (revenue acc)
  ∧ expense (fold_left step transactions acc)
    = fold_left plus (amount <$> filter (λ t, type t ≠ "revenue") transactions)
        (expense acc).
Proof.
  simpl. revert acc.
  induction transactions as [|t ts IH]; intros acc; simpl; [done|].
  rewrite !filter_cons. destruct (IH
    (if bool_decide (type t = "revenue")
     then {| revenue := plus (revenue acc) (amount t); expense := expense acc |}
     else {| revenue := revenue acc; expense := plus (expense acc) (amount t) |}))
    as [-> ->].
  case_bool_decide; repeat case_decide; try done; try congruence.
Qed.

(** C1. When every transaction is of type 'expense' or 'revenue',
    [totals.revenue] is the sum of the amounts of the transactions of type
    'revenue' and [totals.expense] the sum of the amounts of those of type
    'expense'. *)
Theorem totals_sums transactions :
  (∀ t, t ∈ transactions → type t = "expense" ∨ type t = "revenue") →
  revenue (totals transactions)
    = sum (amount <$> filter (λ t, type t = "revenue") transactions)
  ∧ expense (totals transactions)
    = sum (amount <$> filter (λ t, type t = "expense") transactions).
Proof.
  intros Htypes. unfold totals, sum.
  destruct (totals_from transactions {| revenue := zero; expense := zero |})
    as [Hr He].
  simpl in Hr, He. split; [exact Hr|]. rewrite He. do 2 f_equal.
  clear Hr He. induction transactions as [|t ts IH]; [done|].
  rewrite !filter_cons.
  rewrite IH by (intros t' Ht'; apply Htypes; by right).
  destruct (Htypes t) as [E|E]; [by left|..];
    repeat case_decide; try done; congruence.
Qed.

Lemma csvLine_join t : join "," (cellText <$> exportRow t) = csvLine t.
Proof. done. Qed.

(** C2, as the code has it.  The file holds the header and then one line
    (date, type, category, amount, note) for each transaction whose date
    starts with the month, whatever its type, in the order of the list,
    and no line for any other transaction. *)
Theorem export_month_rows {D} transactions (month : string) (data : D) :
  (∀ r, r ∈ exportRows transactions month ↔
        ∃ t, t ∈ transactions ∧ String.prefix month (date t) = true ∧ r = exportRow t)
  ∧ length (exportRows transactions month)
    = length (filter (λ t, String.prefix month (date t) = true) transactions)
  ∧ content (handleExportCSV transactions month data)
    = join newline
        ("Date,Type,Category,Amount,Note"
         :: (csvLine <$> filter (λ t, String.prefix month (date t) = true) transactions)).
Proof.
  split; [|split].
  - intros r. unfold exportRows, monthTransactions.
    rewrite list_elem_of_fmap. split.
    + intros (t & -> & [Hm Ht]%list_elem_of_filter). eauto.
    + intros (t & Ht & Hm & ->). exists t. split; [done|].
      by apply list_elem_of_filter.
  - unfold exportRows. by rewrite length_fmap.
  - unfold handleExportCSV, csvContent, exportRows, monthTransactions.
    cbn [content]. f_equal. f_equal. rewrite <- list_fmap_compose.
    apply list_fmap_ext. intros _ t _. apply csvLine_join.
Qed.

(** *** Categories and months named like no member of [Object.prototype]

    On such lists the dictionaries hold the sums; the two theorems after
    these show what happens otherwise. *)


Lemma totals_snoc transactions t :
  totals (transactions ++ [t])
    = if bool_decide (type t = "revenue")
      then {| revenue := plus (revenue (totals transactions)) (amount t);
              expense := expense (totals transactions) |}
      else {| revenue := revenue (totals transactions);
              expense := plus (expense (totals transactions)) (amount t) |}.
Proof. unfold totals. by rewrite fold_left_app. Qed.

Lemma categoryMap_snoc transactions t :
  categoryMap (transactions ++ [t])
    = if bool_decide (type t = "expense")
      then addTo (categoryMap transactions) (category t) (amount t)
      else categoryMap transactions.
Proof. unfold categoryMap. by rewrite fold_left_app. Qed.

Lemma get_ordinary {V} (o : list (string * V)) k :
  k ∉ ObjectPrototype →
  get o k = match own o k with Some v => Own v | None => Undefined end.
Proof.
  intros Hk. unfold get. destruct (own o k); [done|].
  by rewrite bool_decide_eq_false_2.
Qed.

Lemma assign_ordinary {V} (o : list (string * V)) k v :
  k ∉ ObjectPrototype → assign o k v = put o k v.
Proof.
  intros Hk. unfold assign. rewrite bool_decide_eq_false_2; [done|].
  intros ->. apply Hk. unfold ObjectPrototype. set_solver.
Qed.





Lemma forEach_snoc {A S} (f : S → A → Completion S) (l : list A) (x : A) (s : S) :
  forEach f (l ++ [x]) s
    = match forEach f l s with
      | Normal s' => f s' x
      | ThrowTypeError => ThrowTypeError
      end.
Proof.
  revert s. induction l as [|y l IH]; intros s; simpl.
  - by destruct (f s x).
  - destruct (f s y); [apply IH|done].
Qed.

Lemma record_monthData (l : list (Transaction num)) t :
  type t = "expense" ∨ type t = "revenue" →
  record (monthData l) t = monthData (l ++ [t]).
Proof.
  intros Hty. unfold record, monthData.
  rewrite totals_snoc, categoryMap_snoc.
  destruct Hty as [E|E]; rewrite E; done.
Qed.

(** The months of a list whose types are 'expense' or 'revenue' and whose
    months are named like no member of [Object.prototype]: the loop ends
    normally with one entry for each month that has a transaction, which
    holds the totals and the category dictionary of the transactions of
    that month. *)
Lemma months_by_month transactions :
  (∀ t, t ∈ transactions → type t = "expense" ∨ type t = "revenue") →
  (∀ t, t ∈ transactions → monthOf t ∉ ObjectPrototype) →
  ∃ months,
    forEach monthStep transactions [] = Normal months
    ∧ NoDup months.*1
    ∧ ∀ m, own months m
           = match filter (λ t, monthOf t = m) transactions with
             | [] => None
             | l => Some (monthData l)
             end.
Proof.
  induction transactions as [|t ts IH] using rev_ind; intros Hty Hord.
  { exists []. split; [done|]. split; [apply NoDup_nil_2|done]. }
  destruct IH as (months & Hrun & Hnd & Hown).
  { intros t' Ht'. apply Hty, elem_of_app. by left. }
  { intros t' Ht'. apply Hord, elem_of_app. by left. }
  assert (t ∈ (ts ++ [t])%list) as Ht by (apply elem_of_app; right; left).
  pose proof (Hown (monthOf t)) as Hm.
  rewrite forEach_snoc, Hrun. unfold monthStep. fold (monthOf t).
  rewrite get_ordinary by auto.
  exists (put months (monthOf t)
            (monthData (filter (λ t', monthOf t' = monthOf t) ts ++ [t]))).
  split; [|split; [by apply put_NoDup|]].
  - rewrite Hm. destruct (filter _ ts) as [|t0 l0] eqn:E.
    + by rewrite <- record_monthData by auto.
    + by rewrite <- record_monthData by auto.
  - intros m. rewrite filter_app, filter_cons, filter_nil.
    destruct (decide (monthOf t = m)) as [<-|Hne].
    + rewrite own_put_eq. by destruct (filter _ ts).
    + rewrite own_put_ne, app_nil_r by done. apply Hown.
Qed.

(** X27. On a list whose types are 'expense' or 'revenue' and whose months
    are named like no member of [Object.prototype], the report completes
    with one entry for each month that has a transaction; the entry holds
    the totals and the category dictionary of that month's transactions. *)
Lemma monthlyReport_by_month transactions :
  (∀ t, t ∈ transactions → type t = "expense" ∨ type t = "revenue") →
  (∀ t, t ∈ transactions → monthOf t ∉ ObjectPrototype) →
  ∃ report,
    monthlyReport transactions = Normal report
    ∧ NoDup report.*1
    ∧ ∀ m d, (m, d) ∈ report ↔
        filter (λ t, monthOf t = m) transactions ≠ []
        ∧ d = monthData (filter (λ t, monthOf t = m) transactions).
Proof.
  intros Hty Hord.
  destruct (months_by_month transactions Hty Hord) as (months & Hrun & Hnd & Hown).
  unfold monthlyReport. rewrite Hrun. eexists. split; [done|]. split.
  - by rewrite sort_perm, entries_perm.
  - intros m d. rewrite elem_of_sort, entries_perm. specialize (Hown m). split.
    + intros Hin%(elem_own _ _ _ Hnd). rewrite Hin in Hown.
      destruct (filter _ transactions); [done|]. split; [done|congruence].
    + intros [Hne ->]. apply own_Some_elem. rewrite Hown.
      by destruct (filter _ transactions).
Qed.

(** C3 at a category named like a member of [Object.prototype].  A single
    expense of category 'constructor' leaves a string under that category,
    not a sum. *)
Theorem categoryTotals_constructor (i : option Z) (a : num) (d : string)
    (n : option string) :
  let t := {| id := i; type := "expense"; amount := a;
              category := "constructor"; date := d; note := n |} in
  categoryTotals [t]
    = [("constructor", VStr (builtinText "constructor" +:+ toString a))]
  ∧ own (categoryTotals [t]) "constructor" ≠ Some (VNum (sum [a])).
Proof. split; [reflexivity|discriminate]. Qed.

(** C4 at the same category.  The month's category map holds a string
    under 'constructor', not the sum of that month's expenses of the
    category. *)
Theorem monthlyReport_constructor (i : option Z) (a : num) (n : option string) :
  let t := {| id := i; type := "expense"; amount := a;
              category := "constructor"; date := "2024-01-20"; note := n |} in
  monthlyReport [t]
    = Normal
        [("2024-01",
          {| month_revenue := zero;
             month_expense := plus zero a;
             categories :=
               [("constructor", VStr (builtinText "constructor" +:+ toString a))] |})].
Proof. reflexivity. Qed.

(** *** Months, exports and what the breakdown leaves out *)

Lemma categoryMap_from transactions (map : list (string * Value num)) :
  let step := λ (map : list (string * Value num)) t,
    if bool_decide (type t = "expense")
    then addTo map (category t) (amount t)
    else map in
  fold_left step transactions map
    = fold_left step (filter (λ t, type t = "expense") transactions) map.
Proof.
  simpl. revert map. induction transactions as [|t ts IH]; intros map; [done|].
  rewrite filter_cons. cbn [fold_left]. case_bool_decide as Hty.
  - rewrite decide_True by done. cbn [fold_left].
    rewrite bool_decide_eq_true_2 by done. apply IH.
  - rewrite decide_False by done. apply IH.
Qed.

(** X10. Revenues never reach the category breakdown: it is the breakdown
    of the expenses alone, for every list. *)
Theorem categoryTotals_expenses_only transactions :
  categoryTotals transactions
    = categoryTotals (filter (λ t, type t = "expense") transactions).
Proof.
  unfold categoryTotals, categoryMap. by rewrite categoryMap_from.
Qed.

Lemma substring_length (n : nat) (s : string) :
  (String.length (String.substring 0 n s) ≤ n)%nat.
Proof.
  revert s. induction n as [|n IH]; intros [|a s]; simpl; try lia.
  specialize (IH s). lia.
Qed.

Lemma substring_prefix (m s : string) :
  String.substring 0 (String.length m) s = m ↔ String.prefix m s = true.
Proof.
  revert s. induction m as [|a m IH]; intros s.
  - destruct s; simpl; done.
  - destruct s as [|b s]; simpl; [done|].
    destruct (ascii_dec a b) as [->|Hne].
    + rewrite <- IH. split; [by intros [= ->]|by intros ->].
    + split; [intros [= -> _]; done|done].
Qed.

Lemma prefix_substring (n : nat) (s : string) :
  String.prefix (String.substring 0 n s) s = true.
Proof.
  revert s. induction n as [|n IH]; intros [|a s]; simpl; try done.
  destruct (ascii_dec a a); [apply IH|done].
Qed.

Lemma monthOf_proto t : monthOf t ∈ ObjectPrototype ↔ monthOf t = "valueOf".
Proof.
  split.
  - intros Hin. pose proof (substring_length 7 (date t)) as Hlen.
    fold (monthOf t) in Hlen. unfold ObjectPrototype in Hin.
    repeat (apply elem_of_cons in Hin as [Hin|Hin];
            [rewrite Hin in Hlen; simpl in Hlen; try lia; try done|]).
    by apply elem_of_nil in Hin.
  - intros ->. unfold ObjectPrototype. set_solver.
Qed.

Lemma months_throw transactions (months : list (string * MonthData num)) :
  (∀ k, k ∈ months.*1 → k ∉ ObjectPrototype) →
  forEach monthStep transactions months = ThrowTypeError ↔
    ∃ t, t ∈ transactions ∧ type t ≠ "revenue" ∧ monthOf t = "valueOf".
Proof.
  revert months. induction transactions as [|t ts IH]; intros months Hkeys.
  { simpl. split; [done|]. intros (t & Ht & _). by apply elem_of_nil in Ht. }
  cbn [forEach]. unfold monthStep at 1. fold (monthOf t).
  destruct (decide (monthOf t = "valueOf")) as [Hm|Hm].
  - assert (own months (monthOf t) = None) as Hown.
    { apply own_None. intros Hin. apply (Hkeys _ Hin). by apply monthOf_proto. }
    unfold get. rewrite Hown, bool_decide_eq_true_2 by by apply monthOf_proto.
    case_bool_decide as Hty.
    + rewrite (IH months Hkeys). split.
      * intros (t' & Ht' & H'). exists t'. split; [by right|done].
      * intros (t' & Ht' & Hty' & Hm'). apply elem_of_cons in Ht' as [->|Ht'];
          [done|]. eauto.
    + split; [|done]. intros _. exists t. split; [left|done].
  - assert (monthOf t ∉ ObjectPrototype) as Hord by by rewrite monthOf_proto.
    rewrite get_ordinary by done.
    assert (∀ d k, k ∈ (put months (monthOf t) d).*1 → k ∉ ObjectPrototype) as Hkeys'.
    { intros d k. rewrite put_keys. case_decide; [apply Hkeys|].
      intros [Hk|Hk]%elem_of_app; [by apply Hkeys|].
      apply list_elem_of_singleton in Hk. by subst. }
    assert (∀ d, forEach monthStep ts (put months (monthOf t) d) = ThrowTypeError ↔
                 ∃ t', t' ∈ t :: ts ∧ type t' ≠ "revenue" ∧ monthOf t' = "valueOf")
      as Hstep.
    { intros d. rewrite (IH _ (Hkeys' d)). split.
      - intros (t' & Ht' & H'). exists t'. split; [by right|done].
      - intros (t' & Ht' & Hty' & Hm'). apply elem_of_cons in Ht' as [->|Ht'];
          [done|]. eauto. }
    destruct (own months (monthOf t)); apply Hstep.
Qed.

(** X11. The monthly report fails with a TypeError exactly when the list
    holds a transaction that is not a revenue and whose date starts with
    'valueOf'; on every other list it completes. *)
Theorem monthlyReport_throws_iff transactions :
  monthlyReport transactions = ThrowTypeError ↔
    ∃ t, t ∈ transactions ∧ type t ≠ "revenue"
         ∧ String.prefix "valueOf" (date t) = true.
Proof.
  assert (∀ t, monthOf t = "valueOf" ↔ String.prefix "valueOf" (date t) = true)
    as Hpre by (intros t; apply (substring_prefix "valueOf")).
  unfold monthlyReport.
  pose proof (months_throw transactions []) as Hrun.
  destruct (forEach monthStep transactions []) as [months|].
  - split; [done|]. intros (t & Ht & Hty & Hm). apply Hpre in Hm.
    assert (Normal months = ThrowTypeError) as Habs; [|done].
    apply Hrun; [intros k Hk; by apply elem_of_nil in Hk|]. eauto.
  - split; [|done]. intros _.
    destruct Hrun as [Hrun _]; [intros k Hk; by apply elem_of_nil in Hk|].
    destruct (Hrun eq_refl) as (t & Ht & Hty & Hm). apply Hpre in Hm. eauto.
Qed.

(** X12. The export started from a month of the report holds every
    transaction counted in that month; when the month is seven characters
    long, as for dates written YYYY-MM-DD, it holds exactly those. *)
Theorem export_matches_month transactions (month : string) :
  (∀ t, t ∈ transactions → monthOf t = month →
        exportRow t ∈ exportRows transactions month)
  ∧ (String.length month = 7 →
     monthTransactions transactions month
       = filter (λ t, monthOf t = month) transactions).
Proof.
  split.
  - intros t Ht <-. unfold exportRows, monthTransactions.
    apply list_elem_of_fmap. exists t. split; [done|].
    apply list_elem_of_filter. split; [apply prefix_substring|done].
  - intros Hlen. unfold monthTransactions. apply list_filter_iff. intros t.
    unfold monthOf. rewrite <- Hlen. symmetry. apply substring_prefix.
Qed.
End client.

#[local] Existing Instance ZNumber.
#[local] Existing Instance PlainHost.

(** C2 as stated fails: the export of a month with one revenue and no
    expense has a data row, that of the revenue. *)
Lemma export_includes_revenue :
  Client.type Sample.salary = "revenue"
  ∧ exportRows [Sample.salary] "2024-01" = [exportRow Sample.salary]
  ∧ content (handleExportCSV [Sample.salary] "2024-01" ())
    = "Date,Type,Category,Amount,Note" +:+ newline +:+ "2024-01-31,revenue,Salary,3000,".
Proof. repeat split. Qed.

(** On integers every falsy number is [0]. *)
Lemma ZNumber_falsy_zero (x : Z) : truthy x = false → x = zero.
Proof. simpl. intros Hx%negb_false_iff. by apply Z.eqb_eq. Qed.

(** The sample ledger, run. *)
Example categoryTotals_ledger :
  categoryTotals Sample.ledger = [("Rent", VNum 900%Z); ("Food", VNum 42%Z)].
Proof. reflexivity. Qed.

Example monthlyReport_ledger :
  monthlyReport Sample.ledger
    = Normal
        [("2024-02",
          {| month_revenue := 0%Z; month_expense := 930%Z;
             categories := [("Food", VNum 30%Z); ("Rent", VNum 900%Z)] |});
         ("2024-01",
          {| month_revenue := 3000%Z; month_expense := 12%Z;
             categories := [("Food", VNum 12%Z)] |})].
Proof. reflexivity. Qed.

(** A date that starts with 'valueOf': a revenue is counted in no month,
    an expense stops the report with a TypeError. *)
Example monthlyReport_valueOf :
  monthlyReport [Sample.entry "revenue" 10 "Gift" "valueOf"] = Normal []
  ∧ monthlyReport [Sample.entry "expense" 10 "Food" "valueOf"] = ThrowTypeError.
Proof. split; reflexivity. Qed.

(** One expense of 5 under the category 'constructor', run. *)
Example categoryTotals_constructor_sample :
  categoryTotals [Sample.entry "expense" 5 "constructor" "2024-01-20"]
    = [("constructor", VStr "function Object() { [native code] }5")].
Proof. reflexivity. Qed.

Example monthlyReport_constructor_sample :
  monthlyReport [Sample.entry "expense" 5 "constructor" "2024-01-20"]
    = Normal
        [("2024-01",
          {| month_revenue := 0%Z; month_expense := 5%Z;
             categories :=
               [("constructor", VStr "function Object() { [native code] }5")] |})].
Proof. reflexivity. Qed.

(** A category named '__proto__' is missing from the result. *)
Example categoryTotals_proto :
  categoryTotals [Sample.entry "expense" 10 "__proto__" "2024-01-20"] = [].
Proof. reflexivity. Qed.

(** [totals_sums] on the sample ledger. *)
Lemma totals_sums_sample :
  revenue (totals Sample.ledger)
    = sum (amount <$> filter (λ t, type t = "revenue") Sample.ledger)
  ∧ expense (totals Sample.ledger)
    = sum (amount <$> filter (λ t, type t = "expense") Sample.ledger).
Proof.
  apply (totals_sums Sample.ledger).
  intros t Ht. repeat (apply elem_of_cons in Ht as [->|Ht]; [vm_compute; auto|]).
  by apply elem_of_nil in Ht.
Defined.

(** A name that is not in a list of names, by running the test. *)
Ltac absent :=
  match goal with
  | |- ?x ∉ ?l => apply (bool_decide_eq_false_1 (x ∈ l)); by vm_compute
  end.

(** The categories of the sample ledger are named like no member of
    [Object.prototype], and so are its months. *)
Lemma ledger_ordinary t :
  t ∈ Sample.ledger → type t = "expense" → category t ∉ ObjectPrototype.
Proof.
  intros Ht _.
  repeat (apply elem_of_cons in Ht as [->|Ht]; [absent|]).
  by apply elem_of_nil in Ht.
Qed.

Lemma ledger_months t : t ∈ Sample.ledger → monthOf t ∉ ObjectPrototype.
Proof.
  intros Ht.
  repeat (apply elem_of_cons in Ht as [->|Ht]; [absent|]).
  by apply elem_of_nil in Ht.
Qed.

Lemma ledger_types t :
  t ∈ Sample.ledger → type t = "expense" ∨ type t = "revenue".
Proof.
  intros Ht. repeat (apply elem_of_cons in Ht as [->|Ht]; [vm_compute; auto|]).
  by apply elem_of_nil in Ht.
Qed.

#[local] Existing Instance NaNNumber.

(** Where the numbers have a NaN, not every falsy number is [0]; the sums
    of amounts that are numbers are numbers all the same. *)
Lemma NaN_falsy_not_zero : truthy (None : option Z) = false ∧ (None : option Z) ≠ zero.
Proof. done. Qed.




Lemma ledgerN_ordinary t :
  t ∈ Scenario.ledgerN → type t = "expense" → category t ∉ ObjectPrototype.
Proof.
  intros Ht _.
  repeat (apply elem_of_cons in Ht as [->|Ht]; [absent|]).
  by apply elem_of_nil in Ht.
Qed.

Example categoryTotals_ledgerN :
  categoryTotals Scenario.ledgerN
    = [("Rent", VNum (Some 900%Z)); ("Food", VNum (Some 42%Z))].
Proof. reflexivity. Qed.


(** [monthlyReport_by_month] on the sample ledger. *)
Lemma monthlyReport_by_month_sample :
  ∃ report,
    monthlyReport Sample.ledger = Normal report
    ∧ NoDup report.*1
    ∧ ∀ m d, (m, d) ∈ report ↔
        filter (λ t, monthOf t = m) Sample.ledger ≠ []
        ∧ d = monthData (filter (λ t, monthOf t = m) Sample.ledger).
Proof.
  apply (monthlyReport_by_month Sample.ledger); [exact ledger_types|exact ledger_months].
Defined.
End ClientSpec.

(** ** Strings in order *)

Lemma string_compare_keeps_trans (a b c : string) :
  String.compare a b ≠ Gt → String.compare b c ≠ Gt → String.compare a c ≠ Gt.
Proof.
  revert b c. induction a as [|x a IH]; intros [|y b] [|z c]; simpl; try done.
  unfold Ascii.compare.
  destruct (N.compare_spec (N_of_ascii x) (N_of_ascii y)),
           (N.compare_spec (N_of_ascii y) (N_of_ascii z)),
           (N.compare_spec (N_of_ascii x) (N_of_ascii z));
    try done; try lia.
  apply IH.
Qed.

Lemma string_compare_keeps_total (a b : string) :
  String.compare a b = Gt → String.compare b a ≠ Gt.
Proof. rewrite (String.compare_antisym b a). intros ->. done. Qed.

Lemma string_leb_keeps (a b : string) :
  String.leb a b = true ↔ String.compare a b ≠ Gt.
Proof. unfold String.leb. destruct (String.compare a b); naive_solver. Qed.

(** ** The server *)

Module ServerSpec.
Import Server.
Section server.
Context {num : Type}.

Implicit Types (db : Database num) (b : Body num) (i j : Z).

Lemma max_rowid_bound (t : gmap Z (Columns num)) i c :
  t !! i = Some c → (i ≤ max_rowid t)%Z.
Proof.
  intros Hi%elem_of_map_to_list. unfold max_rowid.
  assert (i ∈ (map_to_list t).*1) as Hin
    by (apply list_elem_of_fmap; by exists (i, c)).
  revert Hin. generalize ((map_to_list t).*1). clear.
  induction l as [|k l IH]; intros Hin; simpl.
  - by apply elem_of_nil in Hin.
  - apply elem_of_cons in Hin as [->|Hin]; [lia|]. specialize (IH Hin). lia.
Qed.

Lemma next_rowid_fresh db : transactions db !! next_rowid db = None.
Proof.
  destruct (transactions db !! next_rowid db) as [c|] eqn:E; [|done].
  apply max_rowid_bound in E. unfold next_rowid in E. lia.
Qed.

Lemma select_all_perm db : select_all db ≡ₚ map_to_list (transactions db).
Proof. apply sort_perm. Qed.

(** C6. The bulk delete empties the table and reports success with
    [changes] equal to the number of rows the table held. *)
Theorem delete_transactions_wipes db :
  (delete_transactions db).1 = Json 200 (Success (Some (size (transactions db))))
  ∧ size (transactions db) = length (select_all db)
  ∧ transactions (delete_transactions db).2 = ∅
  ∧ select_all (delete_transactions db).2 = [].
Proof.
  split; [done|]. split; [|split; [done|]].
  - by rewrite select_all_perm, length_map_to_list.
  - unfold select_all, delete_transactions. simpl. by rewrite map_to_list_empty.
Qed.

(** C8. The list endpoint returns the whole table: each stored row once,
    and nothing else. *)
Theorem get_transactions_all db :
  ∃ rows,
    get_transactions db = (Json 200 (Rows rows), db)
    ∧ NoDup rows
    ∧ (∀ i c, (i, c) ∈ rows ↔ transactions db !! i = Some c)
    ∧ length rows = size (transactions db).
Proof.
  exists (select_all db). split; [done|]. split; [|split].
  - rewrite select_all_perm. apply NoDup_map_to_list.
  - intros i c. rewrite select_all_perm. apply elem_of_map_to_list.
  - by rewrite select_all_perm, length_map_to_list.
Qed.

(** C9. Deleting one row answers 404 'Transaction not found' exactly when
    no row has the id, and then leaves the table as it was; otherwise it
    removes that row, keeps every other row, and reports success. *)
Theorem delete_transaction_spec db i :
  ((delete_transaction db i).1 = Json 404 (Message "Transaction not found")
     ↔ transactions db !! i = None)
  ∧ (transactions db !! i = None → (delete_transaction db i).2 = db)
  ∧ (is_Some (transactions db !! i) →
       (delete_transaction db i).1 = Json 200 (Success None)
       ∧ transactions (delete_transaction db i).2 !! i = None
       ∧ (∀ j, j ≠ i →
            transactions (delete_transaction db i).2 !! j = transactions db !! j)
       ∧ S (size (transactions (delete_transaction db i).2)) = size (transactions db)).
Proof.
  unfold delete_transaction, delete_row.
  destruct (transactions db !! i) as [c|] eqn:E; simpl.
  - split; [split; discriminate|]. split; [discriminate|]. intros _.
    split; [done|]. split; [apply lookup_delete_eq|]. split.
    + intros j Hj. by apply lookup_delete_ne.
    + rewrite map_size_delete, E.
      assert (size (transactions db) ≠ 0); [|lia].
      intros Hsz%map_size_empty_iff. rewrite Hsz in E. by rewrite lookup_empty in E.
  - split; [done|]. split; [done|]. by intros [? ?].
Qed.

(** C10. The list endpoint returns the rows by descending date: a row
    further down the list never has a greater date. *)
Theorem get_transactions_sorted db :
  ∃ rows,
    (get_transactions db).1 = Json 200 (Rows rows)
    ∧ ∀ k l x y, k < l → rows !! k = Some x → rows !! l = Some y →
        String.leb (date y.2) (date x.2) = true.
Proof.
  exists (select_all db). split; [done|].
  assert (StronglySorted (keeps byDateDesc) (select_all db)) as Hs.
  { apply sort_sorted.
    - intros x y. apply string_compare_keeps_total.
    - intros x y z Hxy Hyz. unfold keeps, byDateDesc in *.
      eapply string_compare_keeps_trans; eauto. }
  revert Hs. generalize (select_all db). clear.
  induction 1 as [|r rows Hs IH Hr]; intros k l x y Hkl Hx Hy.
  - by rewrite lookup_nil in Hx.
  - destruct l as [|l]; [lia|]. simpl in Hy. destruct k as [|k].
    + injection Hx as <-. apply string_leb_keeps.
      rewrite Forall_forall in Hr. apply (Hr y).
      by eapply list_elem_of_lookup_2.
    + simpl in Hx. apply (IH k l); [lia|done..].
Qed.

(** C5, as the code has it.  When the body gives type, amount, category and
    date, the update sets all five fields of the row with id [i] to the
    body's values; the row stays under id [i], no row appears or
    disappears, and every other row is unchanged. *)
Theorem put_transaction_replaces db i b ty a c d :
  body_type b = Some ty → body_amount b = Some a →
  body_category b = Some c → body_date b = Some d →
  (is_Some (transactions db !! i) →
     transactions (put_transaction db i b).2 !! i
       = Some {| type := ty; amount := a; category := c; date := d;
                 note := body_note b |})
  ∧ dom (transactions (put_transaction db i b).2) = dom (transactions db)
  ∧ (∀ j, j ≠ i →
       transactions (put_transaction db i b).2 !! j = transactions db !! j).
Proof.
  intros Hty Ha Hc Hd. unfold put_transaction, update_row, bind.
  rewrite Hty, Ha, Hc, Hd.
  destruct (transactions db !! i) as [old|] eqn:E; simpl.
  - split; [intros _; apply lookup_insert_eq|]. split.
    + apply dom_insert_lookup_L. by exists old.
    + intros j Hj. by apply lookup_insert_ne.
  - split; [by intros [? ?]|]. done.
Qed.

(** C7, as the code has it.  When the body gives type, amount, category
    and date, the new row is stored under an id that the store picks from
    the table alone and that no row of the table has; it holds the
    submitted fields, whatever the type and the amount are; the response
    carries the submitted fields and, when the body has no id of its own,
    the new id. *)
Theorem post_transaction_fresh_id db b ty a c d :
  body_type b = Some ty → body_amount b = Some a →
  body_category b = Some c → body_date b = Some d →
  let rowid := next_rowid db in
  transactions db !! rowid = None
  ∧ transactions (post_transaction db b).2
    = <[rowid := {| type := ty; amount := a; category := c; date := d;
                    note := body_note b |}]> (transactions db)
  ∧ (post_transaction db b).1 = Json 200 (Echo (withId rowid b))
  ∧ body_type (withId rowid b) = Some ty
  ∧ body_amount (withId rowid b) = Some a
  ∧ body_category (withId rowid b) = Some c
  ∧ body_date (withId rowid b) = Some d
  ∧ body_note (withId rowid b) = body_note b
  ∧ (body_id b = None → body_id (withId rowid b) = Some (Some rowid)).
Proof.
  intros Hty Ha Hc Hd rowid. split; [apply next_rowid_fresh|].
  unfold post_transaction, insert_row, bind. rewrite Hty, Ha, Hc, Hd. simpl.
  repeat (split; [done|]). by intros ->.
Qed.
End server.

#[local] Existing Instance ZNumber.

(** C5 as stated fails: an update without an amount is refused, and the row
    keeps the category and the date it had. *)
Lemma put_transaction_refused :
  put_transaction Sample.table 1 Sample.noAmount
    = (Json 500 (Message "Internal server error"), Sample.table)
  ∧ Server.body_date Sample.noAmount = Some "2024-02-14"
  ∧ transactions Sample.table !! 1%Z = Some (Sample.row "expense" 12 "Food" "2024-01-15").
Proof. by vm_compute. Qed.

(** [put_transaction_replaces] on the sample table. *)
Lemma put_transaction_replaces_sample :
  (is_Some (transactions Sample.table !! 1%Z) →
     transactions (put_transaction Sample.table 1 Sample.complete).2 !! 1%Z
       = Some {| type := "expense"; amount := 30%Z; category := "Food";
                 date := "2024-02-14"; note := body_note Sample.complete |})
  ∧ dom (transactions (put_transaction Sample.table 1 Sample.complete).2)
    = dom (transactions Sample.table)
  ∧ (∀ j, j ≠ 1%Z →
       transactions (put_transaction Sample.table 1 Sample.complete).2 !! j
         = transactions Sample.table !! j).
Proof.
  apply (put_transaction_replaces Sample.table 1 Sample.complete); reflexivity.
Defined.

(** C7 as stated fails: a create request without an amount stores nothing
    and is answered without an id. *)
Lemma post_transaction_refused :
  post_transaction Sample.table Sample.noAmount = (Uncaught, Sample.table).
Proof. by vm_compute. Qed.

(** A body with an id of its own: the row is stored under the id that the
    store picks, and the response shows the id of the body. *)
Lemma post_transaction_own_id :
  (post_transaction Sample.table Sample.withOwnId).1
    = Json 200 (Echo Sample.withOwnId)
  ∧ transactions (post_transaction Sample.table Sample.withOwnId).2 !! 5%Z
    = Some {| type := "expense"; amount := 30%Z; category := "Food";
              date := "2024-02-14"; note := Some "dinner" |}
  ∧ transactions (post_transaction Sample.table Sample.withOwnId).2 !! 99%Z = None.
Proof. by vm_compute. Qed.

(** A body with [id: null]: the row is stored under id 5 all the same, and
    the responses of the create and of an update show [id: null]. *)
Lemma post_transaction_null_id :
  (post_transaction Sample.table Sample.withNullId).1
    = Json 200 (Echo Sample.withNullId)
  ∧ is_Some (transactions (post_transaction Sample.table Sample.withNullId).2 !! 5%Z)
  ∧ (put_transaction Sample.table 1 Sample.withNullId).1
    = Json 200 (Echo Sample.withNullId).
Proof. vm_compute. eauto. Qed.

(** [post_transaction_fresh_id] on the sample table: the new row gets id 5,
    one more than the largest id handed out. *)
Lemma post_transaction_fresh_id_sample :
  next_rowid Sample.table = 5%Z
  ∧ transactions Sample.table !! 5%Z = None
  ∧ (post_transaction Sample.table Sample.complete).1
    = Json 200 (Echo (withId 5 Sample.complete)).
Proof.
  split; [reflexivity|].
  destruct (post_transaction_fresh_id Sample.table Sample.complete
              "expense" 30%Z "Food" "2024-02-14")
    as (Hfresh & _ & Hres & _); try reflexivity.
  split; [exact Hfresh|exact Hres].
Defined.
End ServerSpec.

(** ** The server, request after request *)

Module RoutesSpec.
Import Server Routes.
Section routes.
Context {num : Type}.

Implicit Types (db : Database num) (b : Body num) (i j : Z) (r : Request num).

Lemma max_rowid_le (t : gmap Z (Columns num)) (n : Z) :
  (0 ≤ n)%Z → (∀ i c, t !! i = Some c → (i ≤ n)%Z) → (max_rowid t ≤ n)%Z.
Proof.
  intros Hn Hle. unfold max_rowid.
  assert (Forall (λ i, (i ≤ n)%Z) (map_to_list t).*1) as Hall.
  { apply Forall_forall. intros i [[i' c] [-> Hin]]%list_elem_of_fmap.
    apply elem_of_map_to_list in Hin. by eapply Hle. }
  induction Hall as [|i l Hi Hl IH]; [done|].
  cbn [foldr]. by apply Z.max_lub.
Qed.

Lemma next_rowid_bounded db :
  bounded db → next_rowid db = (sqlite_sequence db + 1)%Z.
Proof.
  intros [Hseq Hids]. unfold next_rowid.
  pose proof (max_rowid_le (transactions db) (sqlite_sequence db) Hseq) as Hmax.
  rewrite Z.max_l; [done|]. apply Hmax. intros i c Hi. by apply (Hids i c).
Qed.

Lemma sqlite_sequence_put db i b :
  sqlite_sequence (put_transaction db i b).2 = sqlite_sequence db.
Proof.
  unfold put_transaction, update_row.
  destruct (transactions db !! i); [|done]. by destruct (bind b).
Qed.

Lemma dom_put db i b :
  dom (transactions (put_transaction db i b).2) = dom (transactions db).
Proof.
  unfold put_transaction, update_row.
  destruct (transactions db !! i) as [old|] eqn:E; [|done].
  destruct (bind b); [|done]. simpl. apply dom_insert_lookup_L. by exists old.
Qed.

Lemma bounded_route db r : bounded db → bounded (route db r).2.
Proof.
  intros Hb. pose proof Hb as [Hseq Hids]. destruct r as [|b|i b| |i]; simpl.
  - done.
  - unfold post_transaction, insert_row. destruct (bind b) as [cols|]; [|done].
    simpl. rewrite (next_rowid_bounded db Hb). split; simpl; [lia|].
    intros i c. rewrite lookup_insert. case_decide as Hi.
    + intros _. lia.
    + intros Hc. apply Hids in Hc. lia.
  - split; [by rewrite sqlite_sequence_put|].
    intros j c Hj. rewrite sqlite_sequence_put. 
    assert (j ∈ dom (transactions db)) as [c' Hc']%elem_of_dom.
    { rewrite <- (dom_put db i b). by apply elem_of_dom_2 in Hj. }
    by apply (Hids j c').
  - unfold delete_transactions, delete_all. split; simpl; [done|].
    intros i c Hc. by rewrite lookup_empty in Hc.
  - unfold delete_transaction, delete_row.
    destruct (transactions db !! i) as [old|] eqn:E; [|done]. simpl.
    split; simpl; [done|].
    intros j c [_ Hj]%lookup_delete_Some. by apply (Hids j c).
Qed.

Lemma serve_snoc db rs r : serve db (rs ++ [r]) = (route (serve db rs) r).2.
Proof. unfold serve. by rewrite fold_left_app. Qed.

Lemma serve_app db rs1 rs2 : serve db (rs1 ++ rs2) = serve (serve db rs1) rs2.
Proof. unfold serve. by rewrite fold_left_app. Qed.

Lemma bounded_serve db rs : bounded db → bounded (serve db rs).
Proof.
  intros Hb. induction rs as [|r rs IH] using rev_ind; [done|].
  rewrite serve_snoc. by apply bounded_route.
Qed.

Lemma sqlite_sequence_route db r :
  bounded db → (sqlite_sequence db ≤ sqlite_sequence (route db r).2)%Z.
Proof.
  intros Hb. destruct r as [|b|i b| |i]; simpl; try done.
  - unfold post_transaction, insert_row. destruct (bind b); [|done]. simpl.
    rewrite (next_rowid_bounded db Hb). lia.
  - by rewrite sqlite_sequence_put.
  - unfold delete_transaction, delete_row.
    by destruct (transactions db !! i).
Qed.

Lemma sqlite_sequence_serve db rs :
  bounded db → (sqlite_sequence db ≤ sqlite_sequence (serve db rs))%Z.
Proof.
  intros Hb. induction rs as [|r rs IH] using rev_ind; [done|].
  rewrite serve_snoc.
  etransitivity; [exact IH|]. apply sqlite_sequence_route. by apply bounded_serve.
Qed.

Lemma bounded_initial : bounded (@initial num).
Proof.
  unfold initial. split; simpl; [done|].
  intros i c Hc. by rewrite lookup_empty in Hc.
Qed.

(** X1. Started on a new file, the server keeps every id of the table between
    1 and the largest id handed out, whatever requests it gets. *)
Theorem serve_bounded (rs : list (Request num)) : bounded (serve initial rs).
Proof. apply bounded_serve, bounded_initial. Qed.

(** X2. An id that a row has had is never given to a later row: after any
    further requests, deletions among them, the next id is larger. *)
Theorem serve_never_reuses (rs1 rs2 : list (Request num)) i :
  is_Some (transactions (serve initial rs1) !! i) →
  (i < next_rowid (serve initial (rs1 ++ rs2)))%Z.
Proof.
  intros [c Hi].
  pose proof (bounded_serve initial rs1 bounded_initial) as Hb1.
  rewrite serve_app.
  rewrite next_rowid_bounded by by apply bounded_serve.
  pose proof (sqlite_sequence_serve (serve initial rs1) rs2 Hb1) as Hmono.
  destruct Hb1 as [_ Hids]. apply Hids in Hi. lia.
Qed.

(** X3. After a create request that gives type, amount, category and date,
    the list endpoint returns the new row, under its new id, once, together
    with exactly the rows it returned before. *)
Theorem post_then_list db b ty a c d :
  body_type b = Some ty → body_amount b = Some a →
  body_category b = Some c → body_date b = Some d →
  select_all (post_transaction db b).2
    ≡ₚ (next_rowid db,
        {| type := ty; amount := a; category := c; date := d; note := body_note b |})
       :: select_all db.
Proof.
  intros Hty Ha Hc Hd. unfold post_transaction, insert_row, bind.
  rewrite Hty, Ha, Hc, Hd. simpl. unfold select_all. rewrite !sort_perm. simpl.
  apply map_to_list_insert, ServerSpec.next_rowid_fresh.
Qed.

(** X4. A create request is refused exactly when type, amount, category or
    date is missing; a refused request leaves the table as it was and uses
    up no id. *)
Theorem post_refused_iff db b :
  ((post_transaction db b).1 = Uncaught ↔
     body_type b = None ∨ body_amount b = None
     ∨ body_category b = None ∨ body_date b = None)
  ∧ ((post_transaction db b).1 = Uncaught → (post_transaction db b).2 = db).
Proof.
  unfold post_transaction, insert_row, bind.
  destruct (body_type b), (body_amount b), (body_category b), (body_date b);
    simpl; (split; [split|]); try done; try (intros [|[|[|]]]; done); auto.
Qed.

(** X5. An update answers 500 exactly when a row has the id and type, amount,
    category or date is missing; then the database is as it was.  In every
    other case it answers 200 with the body; for an id that no row has this
    changes nothing. *)
Theorem put_outcome db i b :
  ((put_transaction db i b).1 = Json 500 (Message "Internal server error") ↔
     is_Some (transactions db !! i) ∧ bind b = None)
  ∧ ((put_transaction db i b).1 = Json 500 (Message "Internal server error") →
       (put_transaction db i b).2 = db)
  ∧ ((put_transaction db i b).1 ≠ Json 500 (Message "Internal server error") →
       (put_transaction db i b).1 = Json 200 (Echo (withId i b)))
  ∧ (transactions db !! i = None → (put_transaction db i b).2 = db).
Proof.
  unfold put_transaction, update_row.
  destruct (transactions db !! i) as [old|] eqn:E; simpl.
  - destruct (bind b) as [cols|]; simpl.
    + split; [split; [done|by intros [_ ?]]|]. done.
    + split; [split; [eauto|done]|]. done.
  - split; [split; [done|by intros [[? ?] _]]|]. done.
Qed.

(** X6. An update never adds or removes a row and never uses up an id: the
    ids of the table, the number of rows listed and the id counter are the
    same before and after, whatever the id and the body. *)
Theorem put_keeps_rows db i b :
  dom (transactions (put_transaction db i b).2) = dom (transactions db)
  ∧ length (select_all (put_transaction db i b).2) = length (select_all db)
  ∧ next_rowid (put_transaction db i b).2 = next_rowid db.
Proof.
  split; [apply dom_put|]. split.
  - unfold select_all. rewrite !sort_perm, !length_map_to_list.
    rewrite <- !size_dom. by rewrite dom_put.
  - unfold next_rowid. rewrite sqlite_sequence_put. f_equal. f_equal.
    unfold put_transaction, update_row.
    destruct (transactions db !! i) as [old|] eqn:E; [|done].
    destruct (bind b) as [cols|]; [|done]. simpl.
    apply Z.le_antisymm.
    + apply max_rowid_le.
      * unfold max_rowid. induction (map_to_list (transactions db)).*1; simpl; lia.
      * intros j c'. rewrite lookup_insert. case_decide as Hj.
        -- subst. intros _. by eapply ServerSpec.max_rowid_bound.
        -- apply ServerSpec.max_rowid_bound.
    + apply max_rowid_le.
      * unfold max_rowid.
        induction (map_to_list (<[i:=cols]> (transactions db))).*1; simpl; lia.
      * intros j c' Hj. destruct (decide (i = j)) as [->|Hne].
        -- apply (ServerSpec.max_rowid_bound _ j cols). apply lookup_insert_eq.
        -- apply (ServerSpec.max_rowid_bound _ j c'). by rewrite lookup_insert_ne.
Qed.

(** X7. Deleting the same id a second time answers 404 and changes nothing. *)
Theorem delete_transaction_twice db i :
  delete_transaction (delete_transaction db i).2 i
    = (Json 404 (Message "Transaction not found"), (delete_transaction db i).2).
Proof.
  unfold delete_transaction at 2 3. unfold delete_row.
  destruct (transactions db !! i) as [old|] eqn:E; simpl.
  - unfold delete_transaction, delete_row. simpl. by rewrite lookup_delete_eq.
  - unfold delete_transaction, delete_row. by rewrite E.
Qed.

(** X8. Creating a row and then deleting the id it got gives back the table
    as it was before the two requests, with the answer 200 to the delete;
    only the id counter has moved on. *)
Theorem post_then_delete db b ty a c d :
  body_type b = Some ty → body_amount b = Some a →
  body_category b = Some c → body_date b = Some d →
  (delete_transaction (post_transaction db b).2 (next_rowid db)).1
    = Json 200 (Success None)
  ∧ transactions (delete_transaction (post_transaction db b).2 (next_rowid db)).2
    = transactions db
  ∧ sqlite_sequence (delete_transaction (post_transaction db b).2 (next_rowid db)).2
    = next_rowid db.
Proof.
  intros Hty Ha Hc Hd. unfold post_transaction, insert_row, bind.
  rewrite Hty, Ha, Hc, Hd. simpl. unfold delete_transaction, delete_row. simpl.
  rewrite lookup_insert_eq. simpl. split; [done|]. split; [|done].
  apply delete_insert_id, ServerSpec.next_rowid_fresh.
Qed.


(** X24. An update sent twice does what it does once: the second request
    gets the same answer and leaves the database as the first left it. *)
Theorem put_transaction_twice db i b :
  put_transaction (put_transaction db i b).2 i b = put_transaction db i b.
Proof.
  unfold put_transaction at 2 3. unfold update_row.
  destruct (transactions db !! i) as [old|] eqn:E.
  - destruct (bind b) as [cols|] eqn:Hb; simpl.
    + unfold put_transaction, update_row. simpl.
      rewrite lookup_insert_eq, Hb. simpl. by rewrite insert_insert_eq.
    + unfold put_transaction, update_row. by rewrite E, Hb.
  - simpl. unfold put_transaction, update_row. by rewrite E.
Qed.
End routes.

(** [serve_never_reuses]: after two creates and the delete of row 1, the
    next id is above 1. *)
Lemma serve_never_reuses_sample :
  (1 < next_rowid (serve initial (Scenario.createTwice ++ Scenario.deleteFirst)))%Z.
Proof.
  apply (serve_never_reuses Scenario.createTwice Scenario.deleteFirst 1).
  vm_compute. eauto.
Defined.

(** [post_then_list] on the sample table. *)
Lemma post_then_list_sample :
  select_all (post_transaction Sample.table Sample.complete).2
    ≡ₚ (next_rowid Sample.table,
        {| type := "expense"; amount := 30%Z; category := "Food";
           date := "2024-02-14"; note := body_note Sample.complete |})
       :: select_all Sample.table.
Proof. apply (post_then_list Sample.table Sample.complete); reflexivity. Defined.

(** [post_then_delete] on the sample table. *)
Lemma post_then_delete_sample :
  (delete_transaction (post_transaction Sample.table Sample.complete).2
     (next_rowid Sample.table)).1 = Json 200 (Success None)
  ∧ transactions
      (delete_transaction (post_transaction Sample.table Sample.complete).2
         (next_rowid Sample.table)).2 = transactions Sample.table
  ∧ sqlite_sequence
      (delete_transaction (post_transaction Sample.table Sample.complete).2
         (next_rowid Sample.table)).2 = next_rowid Sample.table.
Proof.
  apply (post_then_delete Sample.table Sample.complete
           "expense" 30%Z "Food" "2024-02-14"); reflexivity.
Defined.

End RoutesSpec.

(** ** Orders: the breakdown, the report and the month cards *)

Module ViewsSpec.
Import Client Views.
Section views.
Context {num : Type} {number : JsNumber num} {host : JsHost}.

Implicit Types (t : Transaction num) (transactions : list (Transaction num)).

Lemma elem_of_put {V} (o : list (string * V)) k v p :
  p ∈ put o k v → p = (k, v) ∨ p ∈ o.
Proof.
  induction o as [|[k' v'] o IH]; simpl.
  - intros Hp%list_elem_of_singleton. by left.
  - case_decide.
    + intros [->|Hp]%elem_of_cons; [by left|]. right. by right.
    + intros [->|Hp]%elem_of_cons; [right; left|].
      destruct (IH Hp) as [->|Hin]; [by left|]. right. by right.
Qed.

Lemma categoryMap_numbers transactions :
  (∀ t, t ∈ transactions → type t = "expense" → category t ∉ ObjectPrototype) →
  Forall isNumber (categoryMap transactions).
Proof.
  induction transactions as [|t ts IH] using rev_ind; intros Hord; [constructor|].
  rewrite ClientSpec.categoryMap_snoc.
  assert (Forall isNumber (categoryMap ts)) as Hts.
  { apply IH. intros t' Ht'. apply Hord, elem_of_app. by left. }
  case_bool_decide as Hty; [|done].
  assert (category t ∉ ObjectPrototype) as Hk.
  { apply Hord; [|done]. apply elem_of_app. right. left. }
  unfold addTo. rewrite ClientSpec.assign_ordinary, ClientSpec.get_ordinary by done.
  apply Forall_forall. intros p [->|Hp]%elem_of_put.
  - destruct (own (categoryMap ts) (category t)) as [v|] eqn:E.
    + apply own_Some_elem in E. rewrite Forall_forall in Hts.
      destruct (Hts _ E) as [x Hx]. simpl in Hx. subst v. by eexists.
    + by eexists.
  - rewrite Forall_forall in Hts. by apply Hts.
Qed.

Lemma orderedOn_perm (l1 l2 : list (string * Value num)) :
  l1 ≡ₚ l2 → orderedOn l1 → orderedOn l2.
Proof.
  intros Hperm [Htotal Htrans]. split.
  - intros c1 x1 c2 x2. rewrite <- !Hperm. apply Htotal.
  - intros c1 x1 c2 x2 c3 x3. rewrite <- !Hperm. apply Htrans.
Qed.

Lemma byValueDesc_sorted (l : list (string * Value num)) :
  Forall isNumber l → orderedOn l →
  StronglySorted (keeps byValueDesc) (sort byValueDesc l).
Proof.
  intros Hnum [Htotal Htrans].
  apply (sort_sorted_on byValueDesc (λ p, p ∈ l ∧ isNumber p)).
  - intros [c1 v1] [c2 v2] [Hin1 [x1 H1]] [Hin2 [x2 H2]]. simpl in H1, H2. subst.
    unfold keeps, byValueDesc. simpl. intros Hgt.
    apply (Htotal c2 x2 c1 x1 Hin2 Hin1).
    unfold atMost. intros Hle. by apply Hle.
  - intros [c1 v1] [c2 v2] [c3 v3] [Hin1 [x1 H1]] [Hin2 [x2 H2]] [Hin3 [x3 H3]].
    simpl in H1, H2, H3. subst. unfold keeps, byValueDesc. simpl.
    intros H12 H23. by apply (Htrans c3 x3 c2 x2 c1 x1).
  - rewrite Forall_forall in Hnum. apply Forall_forall. intros p Hp.
    split; [done|by apply Hnum].
Qed.

(** X13. When [-] orders the sums of the breakdown, the breakdown of a
    list whose categories are named like no member of [Object.prototype]
    runs from the largest sum to the smallest. *)
Theorem categoryTotals_sorted transactions (i j : nat) c1 x1 c2 x2 :
  (∀ t, t ∈ transactions → type t = "expense" → category t ∉ ObjectPrototype) →
  orderedOn (categoryTotals transactions) →
  (i < j)%nat →
  categoryTotals transactions !! i = Some (c1, VNum x1) →
  categoryTotals transactions !! j = Some (c2, VNum x2) →
  atMost x2 x1.
Proof.
  intros Hord Horder Hij H1 H2.
  assert (StronglySorted (keeps byValueDesc) (categoryTotals transactions)) as Hs.
  { apply byValueDesc_sorted.
    - rewrite entries_perm. by apply categoryMap_numbers.
    - apply (orderedOn_perm (categoryTotals transactions)); [|done].
      unfold categoryTotals. apply sort_perm. }
  apply (sorted_lookup _ _ Hs i j _ _ Hij H1 H2).
Qed.

(** X14. When a month's categories all hold numbers and [-] orders these
    numbers, the month card shows at most three of the categories, each one
    a category of the month, and none that it leaves out has a larger sum
    than one that it shows. *)
Theorem topExpenses_largest (data : MonthData num) :
  Forall isNumber (categories data) →
  orderedOn (categories data) →
  (length (topExpenses data) ≤ 3)%nat
  ∧ (∀ p, p ∈ topExpenses data → p ∈ categories data)
  ∧ (∀ c1 x1 c2 x2,
       (c1, VNum x1) ∈ topExpenses data →
       (c2, VNum x2) ∈ categories data →
       (c2, VNum x2) ∉ topExpenses data →
       atMost x2 x1).
Proof.
  intros Hnum Horder. unfold topExpenses.
  set (l := sort byValueDesc (entries (categories data))).
  assert (l ≡ₚ categories data) as Hperm by (unfold l; by rewrite sort_perm, entries_perm).
  assert (StronglySorted (keeps byValueDesc) l) as Hs.
  { apply byValueDesc_sorted; [by rewrite entries_perm|].
    apply (orderedOn_perm (categories data)); [|done]. by rewrite entries_perm. }
  split; [rewrite length_take; lia|]. split.
  - intros p Hp. rewrite <- Hperm. apply elem_of_take in Hp as (k & Hk & _).
    by eapply list_elem_of_lookup_2.
  - intros c1 x1 c2 x2 H1 H2 Hout.
    rewrite <- Hperm, <- (take_drop 3 l) in H2.
    apply elem_of_app in H2 as [H2|H2]; [done|].
    rewrite <- (take_drop 3 l) in Hs.
    apply (sorted_app_elem _ _ _ _ _ Hs H1 H2).
Qed.

Section collation.
Hypothesis notAfter_total : ∀ a b : string, ¬ notAfter a b → notAfter b a.
Hypothesis notAfter_trans : ∀ a b c : string, notAfter a b → notAfter b c → notAfter a c.

(** X15. When [localeCompare] orders the month names, a report that
    completes lists the months from the last to the first: no month comes
    after one listed before it. *)
Theorem monthlyReport_sorted transactions report (i j : nat) m1 d1 m2 d2 :
  monthlyReport transactions = Normal report →
  (i < j)%nat →
  report !! i = Some (m1, d1) →
  report !! j = Some (m2, d2) →
  notAfter m2 m1.
Proof.
  unfold monthlyReport. destruct (forEach monthStep transactions []) as [months|];
    [|done].
  intros [= <-] Hij H1 H2.
  set (cmp := λ a b : string * MonthData num, localeCompare b.1 a.1).
  assert (StronglySorted (keeps cmp) (sort cmp (entries months))) as Hs.
  { apply sort_sorted.
    - intros x y Hgt. apply notAfter_total. unfold notAfter.
      intros Hle. by apply Hle.
    - intros x y z Hxy Hyz. by apply (notAfter_trans z.1 y.1 x.1). }
  apply (sorted_lookup _ _ Hs i j _ _ Hij H1 H2).
Qed.
End collation.


End views.

#[local] Existing Instance ZNumber.
#[local] Existing Instance PlainHost.

(** On integers [atMost] is the order. *)
Lemma Z_atMost (x y : Z) : atMost x y ↔ (x ≤ y)%Z.
Proof.
  unfold atMost. simpl. destruct (Z.compare_spec (x - y) 0); split; try done; lia.
Qed.

Lemma Z_atMost_total (x y : Z) : ¬ atMost x y → atMost y x.
Proof. rewrite !Z_atMost. lia. Qed.

Lemma Z_atMost_trans (x y z : Z) : atMost x y → atMost y z → atMost x z.
Proof. rewrite !Z_atMost. lia. Qed.

(** Collation by character code is an order. *)
Lemma plain_notAfter_total (a b : string) : ¬ notAfter a b → notAfter b a.
Proof.
  unfold notAfter. simpl. intros Hab. apply string_compare_keeps_total.
  destruct (String.compare a b); try done; exfalso; by apply Hab.
Qed.

Lemma plain_notAfter_trans (a b c : string) :
  notAfter a b → notAfter b c → notAfter a c.
Proof. apply string_compare_keeps_trans. Qed.

#[local] Existing Instance NaNNumber.

(** Where the numbers have a NaN, [atMost] does not pass along all of
    them: 5 is at most NaN and NaN at most 3. *)
Lemma NaN_atMost_not_trans :
  atMost (Some 5%Z) None ∧ atMost None (Some 3%Z) ∧ ¬ atMost (Some 5%Z) (Some 3%Z).
Proof. unfold atMost. simpl. split; [done|]. split; [done|]. intros H. by apply H. Qed.

(** On the entries of a list that is written out, [orderedOn] by running
    [-] on each pair. *)
Ltac entry_cases :=
  repeat match goal with
    | H : _ ∈ _ :: _ |- _ => apply elem_of_cons in H as [H|H]; [injection H as -> ->|]
    | H : _ ∈ [] |- _ => by apply elem_of_nil in H
    end.

Ltac ordered_by_running :=
  split; intros; entry_cases;
  first [ by vm_compute
        | match goal with H : ¬ _ |- _ => exfalso; apply H; by vm_compute end
        | match goal with H : atMost _ _ |- _ => exfalso; by apply H end ].

Lemma ledgerN_ordered : orderedOn (categoryTotals Scenario.ledgerN).
Proof. rewrite ClientSpec.categoryTotals_ledgerN. ordered_by_running. Qed.

Lemma februaryN_ordered : orderedOn (categories Scenario.februaryN).
Proof. unfold Scenario.februaryN. cbn [categories]. ordered_by_running. Qed.

(** [categoryTotals_sorted] on the sample ledger over integers with a NaN:
    Rent, then Food. *)
Lemma categoryTotals_sorted_sample : atMost (Some 42%Z) (Some 900%Z).
Proof.
  apply (categoryTotals_sorted Scenario.ledgerN 0 1
           "Rent" (Some 900%Z) "Food" (Some 42%Z));
    [exact ClientSpec.ledgerN_ordinary|exact ledgerN_ordered|lia
    |reflexivity|reflexivity].
Defined.

(** [topExpenses_largest] on a month with four categories, over integers
    with a NaN. *)
Lemma topExpenses_largest_sample :
  (length (topExpenses Scenario.februaryN) ≤ 3)%nat
  ∧ (∀ p, p ∈ topExpenses Scenario.februaryN → p ∈ categories Scenario.februaryN)
  ∧ (∀ c1 x1 c2 x2,
       (c1, VNum x1) ∈ topExpenses Scenario.februaryN →
       (c2, VNum x2) ∈ categories Scenario.februaryN →
       (c2, VNum x2) ∉ topExpenses Scenario.februaryN →
       atMost x2 x1).
Proof.
  apply (topExpenses_largest Scenario.februaryN).
  - repeat constructor; by eexists.
  - exact februaryN_ordered.
Defined.

Example topExpenses_february :
  topExpenses Scenario.february
    = [("Rent", VNum 900%Z); ("Health", VNum 50%Z); ("Food", VNum 30%Z)].
Proof. reflexivity. Qed.

(** [monthlyReport_sorted] on the sample ledger: February, then January. *)
Lemma monthlyReport_sorted_sample : notAfter "2024-01" "2024-02".
Proof.
  eapply (monthlyReport_sorted plain_notAfter_total plain_notAfter_trans
            Sample.ledger _ 0 1 "2024-02" _ "2024-01" _);
    [reflexivity|lia|reflexivity|reflexivity].
Defined.

End ViewsSpec.

(** ** The page *)

Module AppSpec.
Import App.
Section app.
Context {num : Type} {number : JsNumber num} {browser : JsBrowser num}.

Implicit Types (w : World num) (s : State num) (a : Action num).

Lemma fetchTransactions_spec w :
  fetchTransactions w
    = {| state := setLoading false
                    (setTransactions (fromRow <$> Server.select_all (database w)) (state w));
         database := database w; alerts := alerts w |}.
Proof. done. Qed.

Lemma fetchTransactions_synced w : synced (fetchTransactions w).
Proof. done. Qed.

Lemma delete_refused (db : Server.Database num) i :
  ok (Server.delete_transaction db i).1 = false →
  Server.transactions db !! i = None ∧ (Server.delete_transaction db i).2 = db.
Proof.
  unfold Server.delete_transaction, Server.delete_row.
  by destruct (Server.transactions db !! i).
Qed.

Lemma delete_accepted (db : Server.Database num) i :
  ok (Server.delete_transaction db i).1 = true →
  is_Some (Server.transactions db !! i).
Proof.
  unfold Server.delete_transaction, Server.delete_row.
  destruct (Server.transactions db !! i); [eauto|done].
Qed.

Lemma synced_onState (f : State num → State num) w :
  (∀ s, transactions (f s) = transactions s) → synced w → synced (onState f w).
Proof. intros Hf Hw. unfold synced, onState. simpl. by rewrite Hf. Qed.

Lemma handleDelete_synced today id w : synced w → synced (handleDelete today id w).
Proof.
  intros Hw. unfold handleDelete. destruct id as [i|]; [|done].
  destruct (Server.delete_transaction (database w) i) as [response db] eqn:E.
  destruct (ok response) eqn:Hok; [done|].
  assert (ok (Server.delete_transaction (database w) i).1 = false) as Hno
    by by rewrite E.
  apply delete_refused in Hno as [_ Hdb]. rewrite E in Hdb. simpl in Hdb.
  subst db. exact Hw.
Qed.

Lemma act_synced today a w : synced w → synced (act today a w).
Proof.
  intros Hw. destruct a; simpl;
    try (apply synced_onState; [by intros []|done]); try done.
  by apply handleDelete_synced.
Qed.

Lemma run_snoc today (actions : list (Action num)) a w :
  run today (actions ++ [a]) w = act today a (run today actions w).
Proof. unfold run. by rewrite fold_left_app. Qed.

Lemma run_synced today (actions : list (Action num)) w :
  synced w → synced (run today actions w).
Proof.
  intros Hw. induction actions as [|a actions IH] using rev_ind; [done|].
  rewrite run_snoc. by apply act_synced.
Qed.

(** X17. Once the page has loaded, its list is the table: after every run
    of actions the list shown is what the list endpoint would answer at
    that moment, row for row and in its order. *)
Theorem page_shows_table (today : string) (db : Server.Database num)
    (actions : list (Action num)) :
  synced (run today (Mount :: actions) (start today db)).
Proof. apply (run_synced today actions), fetchTransactions_synced. Qed.

(** X18. Every transaction that a loaded page lists has an id, and no two
    have the same: the keys of the rows are distinct. *)
Theorem page_ids_distinct (today : string) (db : Server.Database num)
    (actions : list (Action num)) :
  let w := run today (Mount :: actions) (start today db) in
  NoDup (Client.id <$> transactions (state w))
  ∧ Forall (λ t, is_Some (Client.id t)) (transactions (state w)).
Proof.
  intros w.
  assert (synced w) as Hw by apply (run_synced today actions), fetchTransactions_synced.
  unfold synced in Hw. rewrite Hw. split.
  - rewrite <- list_fmap_compose.
    change (Client.id ∘ fromRow) with (Some ∘ (fst : Z * Server.Columns num → Z)).
    rewrite list_fmap_compose. apply (NoDup_fmap_2 Some).
    unfold Server.select_all. rewrite sort_perm. apply NoDup_fst_map_to_list.
  - apply Forall_fmap, Forall_forall. intros r _. by eexists.
Qed.

(** X19. Submitting the form for a new entry whose amount reads as a number
    stores one new row with the fields of the form, under a fresh id, and
    the page then shows the table with it; the form is closed and cleared
    and nothing is alerted. *)
Theorem handleSubmit_creates today w (x : num) :
  editingTransaction (state w) = None →
  parseFloat (amount (state w)) = Some x →
  Server.transactions (database w) !! Server.next_rowid (database w) = None
  ∧ Server.transactions (database (handleSubmit today w))
    = <[Server.next_rowid (database w) :=
          {| Server.type := type (state w); Server.amount := x;
             Server.category := category (state w); Server.date := date (state w);
             Server.note := Some (note (state w)) |}]>
        (Server.transactions (database w))
  ∧ synced (handleSubmit today w)
  ∧ isFormOpen (state (handleSubmit today w)) = false
  ∧ amount (state (handleSubmit today w)) = ""
  ∧ alerts (handleSubmit today w) = alerts w.
Proof.
  intros Hnew Hx. split; [apply ServerSpec.next_rowid_fresh|].
  unfold handleSubmit. rewrite Hnew, fetchTransactions_spec. cbn [database state alerts].
  split; [|done].
  unfold Server.post_transaction, Server.insert_row, Server.bind, payload.
  cbn [Server.body_type Server.body_amount Server.body_category Server.body_date
       Server.body_note]. by rewrite Hx.
Qed.

(** X20. Submitting the form never alerts and always closes and clears the
    form; when the amount does not read as a number, for a new entry or an
    edit, nothing is stored: the input is gone and the table is as it was. *)
Theorem handleSubmit_unread today w :
  alerts (handleSubmit today w) = alerts w
  ∧ isFormOpen (state (handleSubmit today w)) = false
  ∧ editingTransaction (state (handleSubmit today w)) = None
  ∧ amount (state (handleSubmit today w)) = ""
  ∧ category (state (handleSubmit today w)) = ""
  ∧ note (state (handleSubmit today w)) = ""
  ∧ (parseFloat (amount (state w)) = None →
     database (handleSubmit today w) = database w).
Proof.
  unfold handleSubmit. rewrite fetchTransactions_spec. cbn [database state alerts].
  repeat (split; [done|]). intros Hx.
  assert (Server.bind (payload (state w)) = None) as Hbind.
  { unfold Server.bind, payload. simpl. by rewrite Hx. }
  destruct (editingTransaction (state w)) as [t|].
  - destruct (Client.id t) as [i|]; [|done].
    unfold Server.put_transaction, Server.update_row. rewrite Hbind.
    by destruct (Server.transactions (database w) !! i).
  - unfold Server.post_transaction, Server.insert_row. by rewrite Hbind.
Qed.

(** X21. Confirming a delete: without an id nothing happens; for an id that
    no row has, the user is alerted and the page and the table stay as they
    were, the question still open; for the id of a row, that row and no
    other is removed, the list is fetched again, the question is closed and
    nothing is alerted. *)
Theorem handleDelete_outcomes today w i :
  handleDelete today None w = w
  ∧ (Server.transactions (database w) !! i = None →
     handleDelete today (Some i) w
       = {| state := state w; database := database w;
            alerts := alerts w ++ ["Failed to delete transaction. Please try again."] |})
  ∧ (is_Some (Server.transactions (database w) !! i) →
     Server.transactions (database (handleDelete today (Some i) w))
       = delete i (Server.transactions (database w))
     ∧ synced (handleDelete today (Some i) w)
     ∧ isDeleting (state (handleDelete today (Some i) w)) = None
     ∧ alerts (handleDelete today (Some i) w) = alerts w).
Proof.
  split; [done|]. unfold handleDelete, Server.delete_transaction, Server.delete_row.
  destruct (Server.transactions (database w) !! i) as [old|] eqn:E; simpl.
  - split; [done|]. intros _. done.
  - split; [|by intros [? ?]]. intros _. by destruct w.
Qed.

(** X22. Confirming the wipe empties the table and the list, closes the
    question and the report, and alerts nothing; the totals shown are then
    zero and the breakdown and the report are empty. *)
Theorem handleClearAll_empties `{!JsHost} w :
  Server.transactions (database (handleClearAll w)) = ∅
  ∧ transactions (state (handleClearAll w)) = []
  ∧ isClearingAll (state (handleClearAll w)) = false
  ∧ isReportOpen (state (handleClearAll w)) = false
  ∧ alerts (handleClearAll w) = alerts w
  ∧ Client.totals (transactions (state (handleClearAll w)))
    = {| Client.revenue := zero; Client.expense := zero |}
  ∧ Client.categoryTotals (transactions (state (handleClearAll w))) = []
  ∧ Client.monthlyReport (transactions (state (handleClearAll w))) = Normal [].
Proof.
  unfold handleClearAll, Server.delete_transactions, Server.delete_all.
  cbn [ok]. rewrite bool_decide_eq_true_2 by lia.
  rewrite fetchTransactions_spec. cbn [database state alerts].
  assert (Server.select_all
            {| Server.transactions := (∅ : gmap Z (Server.Columns num));
               Server.sqlite_sequence := Server.sqlite_sequence (database w) |} = [])
    as Hnone.
  { unfold Server.select_all. simpl. by rewrite map_to_list_empty. }
  cbn [setLoading setTransactions setIsClearingAll setIsReportOpen transactions
       isClearingAll isReportOpen]. rewrite Hnone. done.
Qed.

(** X23. Opening a row of the table for editing and saving it untouched,
    when the amount reads back from its own text, keeps the row's type,
    amount, category and date and every other row; its note is then the
    text of the note, the empty text where the note was null. *)
Theorem edit_then_save today w i (cols : Server.Columns num) :
  Server.transactions (database w) !! i = Some cols →
  parseFloat (toString (Server.amount cols)) = Some (Server.amount cols) →
  Server.transactions
    (database (handleSubmit today (onState (handleEdit (fromRow (i, cols))) w)))
    = <[i := {| Server.type := Server.type cols;
                Server.amount := Server.amount cols;
                Server.category := Server.category cols;
                Server.date := Server.date cols;
                Server.note := Some (default "" (Server.note cols)) |}]>
        (Server.transactions (database w)).
Proof.
  intros Hi Hx. unfold handleSubmit. rewrite fetchTransactions_spec.
  cbn [database state alerts onState handleEdit editingTransaction
       setIsFormOpen setNote setDate setCategory setAmount setType
       setEditingTransaction fromRow Client.id fst].
  unfold Server.put_transaction, Server.update_row. rewrite Hi.
  unfold Server.bind, payload. simpl. rewrite Hx. simpl.
  unfold Client.noteOrEmpty. simpl. by destruct (Server.note cols).
Qed.

(** X25. Deleting the entry that is open in the form closes and clears the
    form; deleting another entry leaves the form as it was. *)
Theorem handleDelete_form today w i :
  is_Some (Server.transactions (database w) !! i) →
  (isEditing (state w) i = true →
     isFormOpen (state (handleDelete today (Some i) w)) = false
     ∧ editingTransaction (state (handleDelete today (Some i) w)) = None
     ∧ amount (state (handleDelete today (Some i) w)) = "")
  ∧ (isEditing (state w) i = false →
     isFormOpen (state (handleDelete today (Some i) w)) = isFormOpen (state w)
     ∧ editingTransaction (state (handleDelete today (Some i) w))
       = editingTransaction (state w)
     ∧ amount (state (handleDelete today (Some i) w)) = amount (state w)).
Proof.
  intros [old Hi]. unfold handleDelete, Server.delete_transaction, Server.delete_row.
  rewrite Hi. simpl. split; intros ->; by destruct (state w).
Qed.
End app.

#[local] Existing Instance ZNumber.
#[local] Existing Instance ZBrowser.

(** [handleSubmit_creates] on the filled form over the sample table: the
    new row gets id 5. *)
Lemma handleSubmit_creates_sample :
  Server.transactions (database (handleSubmit "2024-03-01" Scenario.filled))
    = <[5%Z := {| Server.type := "expense"; Server.amount := 30%Z;
                  Server.category := "Food"; Server.date := "2024-02-14";
                  Server.note := Some "dinner" |}]>
        (Server.transactions Sample.table)
  ∧ isFormOpen (state (handleSubmit "2024-03-01" Scenario.filled)) = false.
Proof.
  destruct (handleSubmit_creates "2024-03-01" Scenario.filled 30%Z)
    as (_ & Hdb & _ & Hform & _); [reflexivity..|].
  split; [exact Hdb|exact Hform].
Defined.

(** The form without an amount, submitted: nothing is stored and the
    category and the note that were typed are gone. *)
Example handleSubmit_unread_sample :
  database (handleSubmit "2024-03-01" Scenario.unfilled) = Sample.table
  ∧ category (state Scenario.unfilled) = "Food"
  ∧ category (state (handleSubmit "2024-03-01" Scenario.unfilled)) = ""
  ∧ alerts (handleSubmit "2024-03-01" Scenario.unfilled) = [].
Proof. by vm_compute. Qed.

(** [edit_then_save] on the first row of the sample table, whose note is
    null: it becomes the empty text. *)
Lemma edit_then_save_sample :
  Server.transactions
    (database
       (handleSubmit "2024-03-01"
          (onState (handleEdit Scenario.shownLunch) Scenario.page)))
    = <[1%Z := {| Server.type := "expense"; Server.amount := 12%Z;
                  Server.category := "Food"; Server.date := "2024-01-15";
                  Server.note := Some "" |}]>
        (Server.transactions Sample.table).
Proof.
  apply (edit_then_save "2024-03-01" Scenario.page 1
           (Sample.row "expense" 12 "Food" "2024-01-15")); reflexivity.
Defined.

(** [handleDelete_form] on the loaded page with the first row open in the
    form. *)
Lemma handleDelete_form_sample :
  isFormOpen
    (state (handleDelete "2024-03-01" (Some 1%Z)
              (onState (handleEdit Scenario.shownLunch) Scenario.page))) = false
  ∧ isFormOpen
      (state (handleDelete "2024-03-01" (Some 2%Z)
                (onState (handleEdit Scenario.shownLunch) Scenario.page))) = true.
Proof.
  destruct (handleDelete_form "2024-03-01"
              (onState (handleEdit Scenario.shownLunch) Scenario.page) 1)
    as [Hopen _]; [vm_compute; eauto|].
  destruct (handleDelete_form "2024-03-01"
              (onState (handleEdit Scenario.shownLunch) Scenario.page) 2)
    as [_ Hother]; [vm_compute; eauto|].
  destruct (Hopen eq_refl) as [Hclosed _].
  destruct (Hother eq_refl) as [Hkept _].
  split; [exact Hclosed|exact Hkept].
Defined.
End AppSpec.
